(** * vent_backend: the journal relay server

    A shallow embedding of the two server sources of the repository:

    - [Part000]  : src/unnamed/part_000 (retry/fallback requester with
                   [maxRetries], entry truncation, typed error mapping);
    - [ServerJs] : src/server.js (the shorter server: model fallback only).

    Both are Express applications.  What is modelled is the code of the
    [/analyze] and [/transcribe] handlers and of their helpers
    ([callOpenRouter], [extractNature], [transcribeAudio]); the remote
    services (the chat completion endpoint, the transcription endpoint),
    the clock and the upload directory are explicit arguments. *)

From Stdlib Require Import ZArith NArith Strings.String Strings.Ascii.
From Stdlib Require Import Numbers.DecimalString.
From stdpp Require Import gmap list.

(** ** ECMAScript values as the code sees them *)

Module JS.

Local Open Scope N_scope.

(** A JavaScript string is a sequence of UTF-16 code units; [length],
    [slice], [trim] and the regular expressions of the source all count
    code units. *)
Definition char := N.
Definition jsstring := list char.

(** ASCII literals of the source text. *)
Fixpoint lit (s : string) : jsstring :=
  match s with
  | EmptyString => []
  | String a s' => N_of_ascii a :: lit s'
  end.

(** Decimal rendering of an integer, as a template literal prints it. *)
Definition of_Z (z : Z) : jsstring := lit (NilEmpty.string_of_int (Z.to_int z)).

Definition eqb_char (a b : char) : bool := N.eqb a b.

Fixpoint eqb (s t : jsstring) : bool :=
  match s, t with
  | [], [] => true
  | a :: s', b :: t' => eqb_char a b && eqb s' t'
  | _, _ => false
  end.

(** [WhiteSpace] and [LineTerminator] of ECMA-262: what [trim] removes and
    what the class [\s] matches. *)
Definition is_white (c : char) : bool :=
  (c =? 9) || (c =? 10) || (c =? 11) || (c =? 12) || (c =? 13) || (c =? 32)
  || (c =? 160) || (c =? 5760) || ((8192 <=? c) && (c <=? 8202))
  || (c =? 8232) || (c =? 8233) || (c =? 8239) || (c =? 8287)
  || (c =? 12288) || (c =? 65279).

Fixpoint trimStart (s : jsstring) : jsstring :=
  match s with
  | c :: s' => if is_white c then trimStart s' else s
  | [] => []
  end.

Definition trimEnd (s : jsstring) : jsstring := rev (trimStart (rev s)).

(** [s.trim()] *)
Definition trim (s : jsstring) : jsstring := trimEnd (trimStart s).

(** [s.slice(0, n)] for [0 <= n] *)
Definition slice0 (n : Z) (s : jsstring) : jsstring := take (Z.to_nat n) s.

Fixpoint startsWith (p s : jsstring) : bool :=
  match p, s with
  | [], _ => true
  | a :: p', b :: s' => eqb_char a b && startsWith p' s'
  | _ :: _, [] => false
  end.

(** [s.includes(p)] *)
Fixpoint includes (p s : jsstring) : bool :=
  startsWith p s ||
  match s with
  | [] => false
  | _ :: s' => includes p s'
  end.

(** Case folding on the ASCII letters.  Under the [i] flag without [u] a
    pattern character below 128 is matched only by code units below 128
    (ECMA-262 Canonicalize never maps a code unit above 127 to one below),
    so comparing ASCII upper-case forms is the whole of the comparison. *)
Definition upper (c : char) : char :=
  if (97 <=? c) && (c <=? 122) then c - 32 else c.

Definition lower (c : char) : char :=
  if (65 <=? c) && (c <=? 90) then c + 32 else c.

(** [s.toLowerCase()], used by the source on ASCII letters only. *)
Definition toLowerCase (s : jsstring) : jsstring := map lower s.

(** Results of evaluating code that may throw: the value, or the
    [message] of the [Error] thrown. *)
Inductive completion (A : Type) : Type :=
  | Normal (a : A)
  | Thrown (message : jsstring).
Arguments Normal {A} a.
Arguments Thrown {A} message.

Definition bind {A B} (c : completion A) (k : A -> completion B) : completion B :=
  match c with
  | Normal a => k a
  | Thrown m => Thrown m
  end.

(** Values: what [JSON.parse] produces, and [undefined].  A number is kept
    as the text [String(n)] gives for it; [0] and [-0] both print as
    ["0"], and JSON has no [NaN], so a number is falsy exactly when that
    text is ["0"]. *)
#[warnings="-register-all"]
Inductive jsval : Type :=
  | JUndefined
  | JNull
  | JBool (b : bool)
  | JNum (repr : jsstring)
  | JStr (s : jsstring)
  | JArr (elems : list jsval)
  | JObj (props : list (jsstring * jsval)).

Definition truthy (v : jsval) : bool :=
  match v with
  | JUndefined | JNull => false
  | JBool b => b
  | JNum r => negb (eqb r (lit "0"))
  | JStr s => negb (eqb s [])
  | JArr _ | JObj _ => true
  end.

(** [a || b] *)
Definition or_else (a b : jsval) : jsval := if truthy a then a else b.

Fixpoint own (k : jsstring) (props : list (jsstring * jsval)) : option jsval :=
  match props with
  | [] => None
  | (k', v) :: rest => if eqb k' k then Some v else own k rest
  end.

Definition cannot_read (of_what k : jsstring) : jsstring :=
  lit "Cannot read properties of " ++ of_what ++ lit " (reading '" ++ k ++ lit "')".

(** [v.k] for the property names the source reads ([error], [message],
    [choices], [content], [text]): none of them is a property of a
    built-in prototype, so only an object's own properties answer. *)
Definition get (v : jsval) (k : jsstring) : completion jsval :=
  match v with
  | JUndefined => Thrown (cannot_read (lit "undefined") k)
  | JNull => Thrown (cannot_read (lit "null") k)
  | JObj props => Normal (default JUndefined (own k props))
  | JBool _ | JNum _ | JStr _ | JArr _ => Normal JUndefined
  end.

(** [v[0]] *)
Definition get0 (v : jsval) : completion jsval :=
  match v with
  | JUndefined => Thrown (cannot_read (lit "undefined") (lit "0"))
  | JNull => Thrown (cannot_read (lit "null") (lit "0"))
  | JObj props => Normal (default JUndefined (own (lit "0") props))
  | JArr elems => Normal (default JUndefined (head elems))
  | JStr s => Normal (match s with c :: _ => JStr [c] | [] => JUndefined end)
  | JBool _ | JNum _ => Normal JUndefined
  end.

(** [v?.k] *)
Definition get_opt (v : jsval) (k : jsstring) : completion jsval :=
  match v with
  | JUndefined | JNull => Normal JUndefined
  | _ => get v k
  end.

(** [v?.[0]] *)
Definition get0_opt (v : jsval) : completion jsval :=
  match v with
  | JUndefined | JNull => Normal JUndefined
  | _ => get0 v
  end.

Fixpoint join (sep : jsstring) (parts : list jsstring) : jsstring :=
  match parts with
  | [] => []
  | [p] => p
  | p :: rest => p ++ sep ++ join sep rest
  end.

Fixpoint sequence {A} (l : list (completion A)) : completion (list A) :=
  match l with
  | [] => Normal []
  | c :: rest => bind c (fun a => bind (sequence rest) (fun r => Normal (a :: r)))
  end.

(** [`${v}`], that is ToString.  An array joins its elements with commas
    ([null] printing as nothing); a parsed object prints through
    [Object.prototype.toString] unless an own [toString] property, which
    in parsed JSON is never callable, hides it. *)
Fixpoint to_string (v : jsval) : completion jsstring :=
  match v with
  | JUndefined => Normal (lit "undefined")
  | JNull => Normal (lit "null")
  | JBool b => Normal (lit (if b then "true" else "false"))
  | JNum r => Normal r
  | JStr s => Normal s
  | JArr elems =>
      bind (sequence (map (fun e => match e with
                                    | JUndefined | JNull => Normal []
                                    | _ => to_string e
                                    end) elems))
           (fun parts => Normal (join (lit ",") parts))
  | JObj props =>
      match own (lit "toString") props with
      | Some _ => Thrown (lit "Cannot convert object to primitive value")
      | None => Normal (lit "[object Object]")
      end
  end.

End JS.

Import JS.

(** ** Code the two servers share *)

Module Common.

(** *** The sentiment tag

    [/\[SENTIMENT:\s*(positive|negative)\]/i], and in the handlers the
    same pattern followed by [\s*].  The matcher below is the backtracking
    matcher of the pattern written out atom by atom; [k] is what has to
    match after the atom. *)

(** A literal, compared under the [i] flag; gives back the text matched. *)
Fixpoint literal_ci {A} (p s : jsstring) (k : jsstring -> jsstring -> option A)
  : option A :=
  match p, s with
  | [], _ => k [] s
  | a :: p', b :: s' =>
      if eqb_char (upper a) (upper b)
      then literal_ci p' s' (fun m rest => k (b :: m) rest)
      else None
  | _ :: _, [] => None
  end.

(** [\s*], greedy: the longest run first, giving characters back while
    the rest of the pattern fails. *)
Fixpoint spaces {A} (s : jsstring) (k : jsstring -> option A) : option A :=
  match s with
  | c :: s' =>
      if is_white c
      then match spaces s' k with
           | Some r => Some r
           | None => k s
           end
      else k s
  | [] => k []
  end.

(** [(positive|negative)]: the alternatives in order. *)
Definition polarity {A} (s : jsstring) (k : jsstring -> jsstring -> option A)
  : option A :=
  match literal_ci (lit "positive") s k with
  | Some r => Some r
  | None => literal_ci (lit "negative") s k
  end.

(** The whole pattern at the start of [s]; the result is group 1 and what
    the continuation [k] gives for the text after the closing bracket. *)
Definition tag_here {A} (s : jsstring) (k : jsstring -> option A)
  : option (jsstring * A) :=
  literal_ci (lit "[SENTIMENT:") s (fun _ s1 =>
  spaces s1 (fun s2 =>
  polarity s2 (fun group1 s3 =>
  literal_ci (lit "]") s3 (fun _ s4 =>
  match k s4 with
  | Some a => Some (group1, a)
  | None => None
  end)))).

(** The leftmost match: the text before it, and the match. *)
Fixpoint search {A} (s : jsstring) (k : jsstring -> option A)
  : option (jsstring * (jsstring * A)) :=
  match tag_here s k with
  | Some m => Some ([], m)
  | None =>
      match s with
      | [] => None
      | c :: s' =>
          match search s' k with
          | Some (before, m) => Some (c :: before, m)
          | None => None
          end
      end
  end.

(** [aiResponse.match(/\[SENTIMENT:\s*(positive|negative)\]/i)]: group 1. *)
Definition match_tag (aiResponse : jsstring) : option jsstring :=
  match search aiResponse Some with
  | Some (_, (group1, _)) => Some group1
  | None => None
  end.

(** [aiResponse.replace(/\[SENTIMENT:\s*(positive|negative)\]\s*/i, "")] *)
Definition replace_tag (aiResponse : jsstring) : jsstring :=
  match search aiResponse (fun s => spaces s Some) with
  | Some (before, (_, after)) => before ++ after
  | None => aiResponse
  end.

(** [extractNature]: the handlers call it on whatever [callOpenRouter]
    returned; on anything but a string [aiResponse.match] is not callable. *)
Definition extractNature_string (aiResponse : jsstring) : jsstring :=
  match match_tag aiResponse with
  | Some group1 => toLowerCase group1
  | None => lit "positive"
  end.

Definition extractNature (aiResponse : jsval) : completion jsstring :=
  match aiResponse with
  | JStr s => Normal (extractNature_string s)
  | JUndefined => Thrown (cannot_read (lit "undefined") (lit "match"))
  | JNull => Thrown (cannot_read (lit "null") (lit "match"))
  | _ => Thrown (lit "aiResponse.match is not a function")
  end.

(** The text the [/analyze] handlers send back:
    [aiResponse.replace(..., "").trim()]. *)
Definition cleanedAnalysis (aiResponse : jsstring) : jsstring :=
  trim (replace_tag aiResponse).

(** *** The runtime around the handlers *)

(** What [fetch] resolves to, as far as the code reads it: [json] is the
    outcome of [await response.json()] (it throws on a body that is not
    JSON), [text] that of [await response.text()]. *)
Record Response : Type := {
  status : Z;
  statusText : jsstring;
  text : jsstring;
  json : completion jsval;
}.

(** [response.ok] *)
Definition ok (response : Response) : bool :=
  ((200 <=? status response) && (status response <=? 299))%Z.

(** [await fetch(...)] either throws (a network failure) or resolves. *)
Inductive Fetched : Type :=
  | Rejects (message : jsstring)
  | Resolves (response : Response).

(** The part of the completion request that varies: [model] is
    [MODEL_FALLBACKS[modelIndex]], [undefined] ([None]) out of range. *)
Record Request : Type := {
  model : option jsstring;
  system : jsstring;
  user : jsstring;
}.

(** The completion endpoint: the answer to the [n]-th request of a call. *)
Definition Upstream : Type := nat -> Request -> Fetched.

(** What a call does that can be seen from outside. *)
Inductive Event : Type :=
  | Fetch (request : Request)
  | Sleep (ms : Z).

Definition fetches (trace : list Event) : list Request :=
  omap (fun e => match e with Fetch r => Some r | Sleep _ => None end) trace.

(** [res.status(code).json(payload)] *)
Record HttpResponse : Type := {
  code : Z;
  payload : jsval;
}.

(** The upload directory: the files in it and their bytes. *)
Definition Files : Type := gmap jsstring (list N).

(** [await fs.unlink(path).catch(() => {})]: the file is gone afterwards;
    when there is none the rejection is swallowed. *)
Definition unlink (path : jsstring) (files : Files) : Files := delete path files.

(** A double quote inside a message of the source. *)
Definition dq : jsstring := [34%N].

(** The message of the TypeError of [const { k } = req.body] on a
    [req.body] that is [undefined] or [null]. *)
Definition cannot_destructure (k of_what : jsstring) : jsstring :=
  lit "Cannot destructure property '" ++ k ++ lit "' of 'req.body' as it is "
    ++ of_what ++ lit ".".

(** *** The upload filter

    [/\.(mp3|mp4|m4a|wav|webm)$/i] and its like: a dot, one of the
    extensions, the end of the name. *)

(** [(e1|e2|...)]: the alternatives in order. *)
Fixpoint alternatives {A} (exts : list jsstring) (s : jsstring)
    (k : jsstring -> jsstring -> option A) : option A :=
  match exts with
  | [] => None
  | e :: exts' =>
      match literal_ci e s k with
      | Some r => Some r
      | None => alternatives exts' s k
      end
  end.

(** The whole pattern at the start of [s]; the result is group 1. *)
Definition extension_here (exts : list jsstring) (s : jsstring) : option jsstring :=
  literal_ci (lit ".") s (fun _ s1 =>
  alternatives exts s1 (fun group1 s2 =>
  match s2 with
  | [] => Some group1
  | _ :: _ => None
  end)).

(** The leftmost match. *)
Fixpoint search_extension (exts : list jsstring) (s : jsstring) : option jsstring :=
  match extension_here exts s with
  | Some group1 => Some group1
  | None =>
      match s with
      | [] => None
      | _ :: s' => search_extension exts s'
      end
  end.

(** [pattern.test(name)], and the truth of [name.match(pattern)]. *)
Definition has_extension (exts : list jsstring) (name : jsstring) : bool :=
  match search_extension exts name with
  | Some _ => true
  | None => false
  end.

End Common.
Import Common.

(** ** src/unnamed/part_000 *)

Module Part000.

Section Requester.

(** [MODEL_FALLBACKS], fixed when the process starts. *)
Variable MODEL_FALLBACKS : list jsstring.

Definition maxRetries : nat := 2.
Definition baseDelay : Z := 3000.

(** [baseDelay * Math.pow(2, retryCount)] *)
Definition backoff (retryCount : nat) : Z := (baseDelay * 2 ^ Z.of_nat retryCount)%Z.

(** How one activation of [callOpenRouter] ends: it returns a value, it
    throws, or it sleeps and returns the promise of a further activation
    (a [return callOpenRouter(...)] without [await]: a rejection of that
    promise does not pass through the [catch] of this activation). *)
Inductive Step : Type :=
  | Return (v : jsval)
  | Throw (message : jsstring)
  | Again (ms : Z) (retryCount modelIndex : nat).

Definition rate_limit_exceeded : jsstring :=
  lit "Rate limit exceeded. Free tier models are currently busy. Please try again in a few minutes.".

Definition invalid_structure : jsstring :=
  lit "Invalid response structure from OpenRouter API".

Definition api_error (status : Z) (errorMessage : jsstring) : jsstring :=
  lit "OpenRouter API error: " ++ of_Z status ++ lit " - " ++ errorMessage.

(** The [try] block, from the point where [fetch] has settled. *)
Definition try_block (retryCount modelIndex : nat) (fetched : Fetched)
  : completion Step :=
  match fetched with
  | Rejects message => Thrown message
  | Resolves response =>
    bind (json response) (fun data =>
    if (status response =? 429)%Z then
      if (Z.of_nat modelIndex <? Z.of_nat (length MODEL_FALLBACKS) - 1)%Z then
        Normal (Again 2000 0 (modelIndex + 1))
      else if retryCount <? maxRetries then
        Normal (Again (backoff retryCount) (retryCount + 1) 0)
      else Thrown rate_limit_exceeded
    else if negb (ok response) then
      bind (get data (lit "error")) (fun error =>
      bind (get_opt error (lit "message")) (fun message =>
      let errorMessage := or_else message (JStr (statusText response)) in
      if (500 <=? status response)%Z && (retryCount <? maxRetries) then
        Normal (Again (backoff retryCount) (retryCount + 1) modelIndex)
      else
        bind (to_string errorMessage) (fun shown =>
        Thrown (api_error (status response) shown))))
    else
      bind (get data (lit "choices")) (fun choices =>
      if negb (truthy choices) then Thrown invalid_structure else
      bind (get0 choices) (fun first =>
      if negb (truthy first) then Thrown invalid_structure else
      bind (get first (lit "message")) (fun message =>
      if negb (truthy message) then Thrown invalid_structure else
      bind (get message (lit "content")) (fun content =>
      Normal (Return content))))))
  end.

(** The [catch] block. *)
Definition catch_block (retryCount modelIndex : nat) (message : jsstring) : Step :=
  if includes (lit "fetch failed") message && (retryCount <? maxRetries)
  then Again (backoff retryCount) (retryCount + 1) modelIndex
  else Throw message.

Definition attempt (retryCount modelIndex : nat) (fetched : Fetched) : Step :=
  match try_block retryCount modelIndex fetched with
  | Normal step => step
  | Thrown message => catch_block retryCount modelIndex message
  end.

(** [callOpenRouter(systemPrompt, userMessage, retryCount, modelIndex)].
    [fuel] bounds the number of activations and [n] counts the requests
    already made; the result is [None] while the call is still pending
    when the fuel runs out. *)
Fixpoint callOpenRouter (fuel : nat) (upstream : Upstream) (n : nat)
    (systemPrompt userMessage : jsstring) (retryCount modelIndex : nat)
  : option (completion jsval) * list Event :=
  match fuel with
  | O => (None, [])
  | S fuel' =>
    let currentModel := MODEL_FALLBACKS !! modelIndex in
    let request := {| model := currentModel; system := systemPrompt;
                      user := userMessage |} in
    match attempt retryCount modelIndex (upstream n request) with
    | Return v => (Some (Normal v), [Fetch request])
    | Throw message => (Some (Thrown message), [Fetch request])
    | Again ms retryCount' modelIndex' =>
      let '(result, trace) :=
        callOpenRouter fuel' upstream (S n) systemPrompt userMessage
                       retryCount' modelIndex' in
      (result, Fetch request :: Sleep ms :: trace)
    end
  end.

End Requester.

(** The chain of the source; its first entry is
    [process.env.OPENROUTER_MODEL || "deepseek/deepseek-r1:free"]. *)
Definition MODEL_FALLBACKS (OPENROUTER_MODEL : option jsstring) : list jsstring :=
  [ match OPENROUTER_MODEL with
    | Some m => if truthy (JStr m) then m else lit "deepseek/deepseek-r1:free"
    | None => lit "deepseek/deepseek-r1:free"
    end;
    lit "google/gemini-2.0-flash-exp:free";
    lit "meta-llama/llama-3.2-3b-instruct:free";
    lit "nousresearch/hermes-3-llama-3.1-405b:free";
    lit "openai/gpt-3.5-turbo" ].

(** *** POST /analyze *)

Definition systemPrompt : jsstring := lit
"You are an empathetic AI journal companion. Your role is to:
1. Analyze the emotional tone and mood of the user's journal entry
2. Identify key themes, concerns, or highlights
3. Generate 2-3 thoughtful, empathetic follow-up questions that encourage deeper reflection
4. Provide validation and support

IMPORTANT GUIDELINES:
- Use SIMPLE, everyday language that anyone can understand
- AVOID jargon, technical terms, or complex vocabulary
- Write like you're talking to a friend - warm, natural, and conversational
- If the user writes in Hindi or uses Hindi words, respond in Hinglish (Hindi words written in English script mixed with English)
- Keep sentences short and clear
- KEEP YOUR RESPONSE BRIEF - Maximum 3-4 short sentences total
- Use line breaks between thoughts for easy reading
- At the very beginning of your response, include a sentiment marker: [SENTIMENT: positive] or [SENTIMENT: negative]

After the sentiment marker, provide a SHORT empathetic response (50-100 words max).

Example format for English entry:
[SENTIMENT: positive]
That sounds amazing! I can feel your excitement.

What made this moment special for you?
How are you planning to celebrate?

Example format for Hindi/Hinglish entry:
[SENTIMENT: negative]
Aaj kaafi tough raha lagta hai. It's okay to feel overwhelmed.

Kya hua specifically?
Abhi kaise feel kar rahe ho?".

Definition invalid_input (message : jsstring) : HttpResponse :=
  {| code := 400;
     payload := JObj [ (lit "error", JStr (lit "Invalid input"));
                       (lit "message", JStr message) ] |}.

(** The handler from the point where [callOpenRouter] has settled: the
    rest of the [try] block, and the [catch] block. *)
Definition analyze_respond (now : jsstring) (settled : completion jsval)
  : HttpResponse :=
  let attempt :=
    bind settled (fun aiResponse =>
    bind (extractNature aiResponse) (fun nature =>
    match aiResponse with
    | JStr text =>
        Normal {| code := 200;
                  payload := JObj [ (lit "success", JBool true);
                                    (lit "analysis", JStr (cleanedAnalysis text));
                                    (lit "nature", JStr nature);
                                    (lit "timestamp", JStr now) ] |}
    | _ => Thrown (lit "aiResponse.replace is not a function")
    end)) in
  match attempt with
  | Normal response => response
  | Thrown message =>
      if includes (lit "Rate limit exceeded") message then
        {| code := 429;
           payload := JObj [ (lit "error", JStr (lit "Rate limit exceeded"));
                             (lit "message", JStr (lit "Too many requests. Please wait a moment and try again."));
                             (lit "retryAfter", JNum (lit "60")) ] |}
      else if includes (lit "OpenRouter API error") message then
        {| code := 502;
           payload := JObj [ (lit "error", JStr (lit "External API error"));
                             (lit "message", JStr (lit "Failed to communicate with AI service. Please try again later."));
                             (lit "details", JStr message) ] |}
      else
        {| code := 500;
           payload := JObj [ (lit "error", JStr (lit "Internal server error"));
                             (lit "message", JStr (lit "An unexpected error occurred while analyzing your entry")) ] |}
  end.

(** The handler on a [req.body] that is an object: [body] holds its
    properties; [now] is [new Date().toISOString()].  The response is
    [None] while [callOpenRouter] is pending.  The handler on any
    [req.body], one that was never parsed included, is [analyze_request]
    below. *)
Definition analyze (chain : list jsstring) (fuel : nat) (upstream : Upstream)
    (now : jsstring) (body : list (jsstring * jsval))
  : option HttpResponse * list Event :=
  let entry := default JUndefined (own (lit "entry") body) in
  let not_a_string :=
    (Some (invalid_input (lit "Request body must contain an " ++ dq ++ lit "entry"
                            ++ dq ++ lit " field with a string value")), []) in
  match entry with
  | JStr s =>
      if negb (truthy entry) then not_a_string
      else if (Z.of_nat (length (trim s)) =? 0)%Z then
        (Some (invalid_input (lit "Journal entry cannot be empty")), [])
      else
        let trimmedEntry :=
          if (Z.of_nat (length s) >? 10000)%Z then slice0 10000 s else s in
        let '(settled, trace) :=
          callOpenRouter chain fuel upstream 0 systemPrompt trimmedEntry 0 0 in
        (option_map (analyze_respond now) settled, trace)
  | _ => not_a_string
  end.

(** *** POST /transcribe *)

(** [transcribeAudio(filePath)]: [whisper] is the transcription endpoint,
    answering the bytes it is sent. *)
Definition transcribeAudio (files : Files) (whisper : list N -> Fetched)
    (filePath : jsstring) : completion jsval :=
  match files !! filePath with
  | None => Thrown (lit "ENOENT: no such file or directory, open '" ++ filePath ++ lit "'")
  | Some fileBuffer =>
      match whisper fileBuffer with
      | Rejects message => Thrown message
      | Resolves response =>
          if negb (ok response) then
            let errorData := match json response with
                             | Normal d => d
                             | Thrown _ => JObj []
                             end in
            bind (get errorData (lit "error")) (fun error =>
            bind (get_opt error (lit "message")) (fun message =>
            bind (to_string (or_else message (JStr (statusText response)))) (fun shown =>
            Thrown (lit "Transcription failed: " ++ of_Z (status response)
                      ++ lit " - " ++ shown))))
          else
            bind (json response) (fun data =>
            bind (get data (lit "text")) (fun t =>
            Normal (or_else t (JStr []))))
      end
  end.

(** The handler: [file] is [req.file.path] when multer stored an upload.
    It gives the response and the upload directory it leaves. *)
Definition transcribe (files : Files) (whisper : list N -> Fetched)
    (now : jsstring) (file : option jsstring) : HttpResponse * Files :=
  match file with
  | None =>
      ({| code := 400;
          payload := JObj [ (lit "error", JStr (lit "No file uploaded"));
                            (lit "message", JStr (lit "Please upload an audio file with the field name "
                                                    ++ dq ++ lit "audio" ++ dq)) ] |},
       files)
  | Some path =>
      match transcribeAudio files whisper path with
      | Normal text =>
          let files' := unlink path files in
          ({| code := 200;
              payload := JObj [ (lit "success", JBool true);
                                (lit "text", text);
                                (lit "timestamp", JStr now) ] |},
           files')
      | Thrown _ =>
          ({| code := 500;
              payload := JObj [ (lit "error", JStr (lit "Internal server error"));
                                (lit "message", JStr (lit "An error occurred while transcribing the audio file")) ] |},
           files)
      end
  end.

(** *** POST /recap *)

Definition recapPrompt : jsstring := lit
"You are an insightful AI journal analyst. Create a comprehensive monthly recap that includes:

1. **Overall Emotional Trend**: Describe the general emotional trajectory over the month
2. **Key Highlights**: Identify 3-5 significant moments or achievements
3. **Recurring Themes**: Note patterns in thoughts, concerns, or activities
4. **Personal Growth**: Observe any signs of growth or change
5. **Supportive Advice**: Offer 2-3 pieces of constructive, encouraging advice for moving forward

Be empathetic, constructive, and focus on helping the user gain insights about themselves. Structure your response with clear sections. Keep it concise (under 500 words).".

(** The handler from the point where [callOpenRouter] has settled. *)
Definition recap_respond (now : jsstring) (settled : completion jsval)
  : HttpResponse :=
  match settled with
  | Normal aiResponse =>
      {| code := 200;
         payload := JObj [ (lit "success", JBool true);
                           (lit "recap", aiResponse);
                           (lit "timestamp", JStr now) ] |}
  | Thrown message =>
      if includes (lit "Rate limit exceeded") message then
        {| code := 429;
           payload := JObj [ (lit "error", JStr (lit "Rate limit exceeded"));
                             (lit "message", JStr (lit "Too many requests. Please wait a moment and try again."));
                             (lit "retryAfter", JNum (lit "60")) ] |}
      else if includes (lit "OpenRouter API error") message then
        {| code := 502;
           payload := JObj [ (lit "error", JStr (lit "External API error"));
                             (lit "message", JStr (lit "Failed to communicate with AI service. Please try again later."));
                             (lit "details", JStr message) ] |}
      else
        {| code := 500;
           payload := JObj [ (lit "error", JStr (lit "Internal server error"));
                             (lit "message", JStr (lit "An unexpected error occurred while generating your recap")) ] |}
  end.

Definition recap (chain : list jsstring) (fuel : nat) (upstream : Upstream)
    (now : jsstring) (body : list (jsstring * jsval))
  : option HttpResponse * list Event :=
  let entries := default JUndefined (own (lit "entries") body) in
  let not_a_string :=
    (Some (invalid_input (lit "Request body must contain an " ++ dq ++ lit "entries"
                            ++ dq ++ lit " field with a string value")), []) in
  match entries with
  | JStr s =>
      if negb (truthy entries) then not_a_string
      else if (Z.of_nat (length (trim s)) =? 0)%Z then
        (Some (invalid_input (lit "Entries cannot be empty")), [])
      else if (Z.of_nat (length s) >? 50000)%Z then
        (Some (invalid_input (lit "Entries are too long. Maximum 50,000 characters allowed.")), [])
      else
        let '(settled, trace) :=
          callOpenRouter chain fuel upstream 0 recapPrompt s 0 0 in
        (option_map (recap_respond now) settled, trace)
  | _ => not_a_string
  end.

(** *** The handlers on any request body

    [const { entry } = req.body] is the first statement of the [try]
    block: on a [req.body] that is [undefined] (a request whose body was
    not parsed) or [null] it throws, and the [catch] block answers; on
    anything else it reads the property [entry], which only an object
    has. *)

Definition analyze_request (chain : list jsstring) (fuel : nat)
    (upstream : Upstream) (now : jsstring) (req_body : jsval)
  : option HttpResponse * list Event :=
  match req_body with
  | JUndefined =>
      (Some (analyze_respond now
               (Thrown (cannot_destructure (lit "entry") (lit "undefined")))), [])
  | JNull =>
      (Some (analyze_respond now
               (Thrown (cannot_destructure (lit "entry") (lit "null")))), [])
  | JObj props => analyze chain fuel upstream now props
  | JBool _ | JNum _ | JStr _ | JArr _ => analyze chain fuel upstream now []
  end.

Definition recap_request (chain : list jsstring) (fuel : nat)
    (upstream : Upstream) (now : jsstring) (req_body : jsval)
  : option HttpResponse * list Event :=
  match req_body with
  | JUndefined =>
      (Some (recap_respond now
               (Thrown (cannot_destructure (lit "entries") (lit "undefined")))), [])
  | JNull =>
      (Some (recap_respond now
               (Thrown (cannot_destructure (lit "entries") (lit "null")))), [])
  | JObj props => recap chain fuel upstream now props
  | JBool _ | JNum _ | JStr _ | JArr _ => recap chain fuel upstream now []
  end.

(** *** The upload filter of multer *)

Definition allowedTypes : list jsstring :=
  [ lit "audio/mp4"; lit "audio/mpeg"; lit "audio/wav"; lit "audio/webm";
    lit "video/mp4"; lit "audio/m4a" ].

(** [fileFilter]: [cb(null, true)] or [cb(new Error(...))]. *)
Definition fileFilter (mimetype originalname : jsstring) : completion bool :=
  if existsb (fun t => JS.eqb t mimetype) allowedTypes
     || has_extension [lit "mp4"; lit "m4a"; lit "mp3"; lit "wav"; lit "webm"]
                      originalname
  then Normal true
  else Thrown (lit "Invalid file type. Only audio/video files are allowed.").

End Part000.

(** ** src/server.js *)

Module ServerJs.

Section Requester.

Variable MODEL_FALLBACKS : list jsstring.

Inductive Step : Type :=
  | Return (v : jsval)
  | Throw (message : jsstring)
  | Again (ms : Z) (retryCount modelIndex : nat).

(** One activation of [callOpenRouter], from the point where [fetch] has
    settled.  There is no [try]: whatever throws rejects the call. *)
Definition attempt (modelIndex : nat) (fetched : Fetched) : Step :=
  match fetched with
  | Rejects message => Throw message
  | Resolves response =>
    if (status response =? 429)%Z
       && (Z.of_nat modelIndex <? Z.of_nat (length MODEL_FALLBACKS) - 1)%Z then
      Again 2000 0 (modelIndex + 1)
    else if negb (ok response) then
      Throw (lit "OpenRouter failed: " ++ of_Z (status response) ++ lit " - "
               ++ text response)
    else
      match
        bind (json response) (fun data =>
        bind (get data (lit "choices")) (fun choices =>
        bind (get0_opt choices) (fun first =>
        bind (get_opt first (lit "message")) (fun message =>
        bind (get_opt message (lit "content")) (fun content =>
        Normal (or_else content (JStr (lit "No response"))))))))
      with
      | Normal v => Return v
      | Thrown message => Throw message
      end
  end.

(** [callOpenRouter(systemPrompt, userMessage, retryCount, modelIndex)];
    [retryCount] is passed along and never read. *)
Fixpoint callOpenRouter (fuel : nat) (upstream : Upstream) (n : nat)
    (systemPrompt userMessage : jsstring) (retryCount modelIndex : nat)
  : option (completion jsval) * list Event :=
  match fuel with
  | O => (None, [])
  | S fuel' =>
    let request := {| model := MODEL_FALLBACKS !! modelIndex;
                      system := systemPrompt; user := userMessage |} in
    match attempt modelIndex (upstream n request) with
    | Return v => (Some (Normal v), [Fetch request])
    | Throw message => (Some (Thrown message), [Fetch request])
    | Again ms retryCount' modelIndex' =>
      let '(result, trace) :=
        callOpenRouter fuel' upstream (S n) systemPrompt userMessage
                       retryCount' modelIndex' in
      (result, Fetch request :: Sleep ms :: trace)
    end
  end.

End Requester.

Definition MODEL_FALLBACKS (OPENROUTER_MODEL : option jsstring) : list jsstring :=
  [ match OPENROUTER_MODEL with
    | Some m => if truthy (JStr m) then m else lit "deepseek/deepseek-r1:free"
    | None => lit "deepseek/deepseek-r1:free"
    end;
    lit "google/gemini-2.0-flash-exp:free";
    lit "meta-llama/llama-3.2-3b-instruct:free";
    lit "nousresearch/hermes-3-llama-3.1-405b:free";
    lit "openai/gpt-3.5-turbo" ].

(** *** POST /analyze *)

Definition systemPrompt : jsstring :=
  lit "You are an empathetic AI journal companion... (same as your previous long prompt)".

Definition analyze_respond (settled : completion jsval) : HttpResponse :=
  let attempt :=
    bind settled (fun aiResponse =>
    bind (extractNature aiResponse) (fun nature =>
    match aiResponse with
    | JStr text =>
        Normal {| code := 200;
                  payload := JObj [ (lit "success", JBool true);
                                    (lit "analysis", JStr (cleanedAnalysis text));
                                    (lit "nature", JStr nature) ] |}
    | _ => Thrown (lit "aiResponse.replace is not a function")
    end)) in
  match attempt with
  | Normal response => response
  | Thrown message =>
      {| code := 500;
         payload := JObj [ (lit "error", JStr (lit "Internal error"));
                           (lit "message", JStr message) ] |}
  end.

Definition analyze (chain : list jsstring) (fuel : nat) (upstream : Upstream)
    (body : list (jsstring * jsval))
  : option HttpResponse * list Event :=
  let entry := default JUndefined (own (lit "entry") body) in
  let invalid :=
    (Some {| code := 400;
             payload := JObj [ (lit "error", JStr (lit "Invalid input"));
                               (lit "message", JStr (lit "Provide a valid entry string.")) ] |},
     []) in
  match entry with
  | JStr s =>
      if negb (truthy entry) || negb (truthy (JStr (trim s))) then invalid
      else
        let '(settled, trace) :=
          callOpenRouter chain fuel upstream 0 systemPrompt s 0 0 in
        (option_map analyze_respond settled, trace)
  | _ => invalid
  end.

(** *** POST /transcribe *)

Definition transcribeAudio (files : Files) (whisper : list N -> Fetched)
    (filePath : jsstring) : completion jsval :=
  match files !! filePath with
  | None => Thrown (lit "ENOENT: no such file or directory, open '" ++ filePath ++ lit "'")
  | Some fileBuffer =>
      match whisper fileBuffer with
      | Rejects message => Thrown message
      | Resolves response =>
          if negb (ok response) then
            Thrown (lit "Groq API failed: " ++ of_Z (status response)
                      ++ lit " - " ++ text response)
          else
            bind (json response) (fun data =>
            bind (get data (lit "text")) (fun t =>
            Normal (or_else t (JStr []))))
      end
  end.

(** [text.trim()] on what [transcribeAudio] returned. *)
Definition trim_of (v : jsval) : completion jsstring :=
  match v with
  | JStr s => Normal (trim s)
  | _ => Thrown (lit "text.trim is not a function")
  end.

(** The handler: the [try] and [catch] blocks give the response, the
    [finally] block removes the upload when [uploadedFile] was set. *)
Definition transcribe (files : Files) (whisper : list N -> Fetched)
    (file : option jsstring) : HttpResponse * Files :=
  match file with
  | None =>
      ({| code := 400;
          payload := JObj [ (lit "error", JStr (lit "Invalid input"));
                            (lit "message", JStr (lit "Request must include an audio file (field name: 'audio')")) ] |},
       files)
  | Some uploadedFile =>
      let attempt :=
        bind (transcribeAudio files whisper uploadedFile) (fun text =>
        bind (trim_of text) (fun trimmed =>
        if negb (truthy (JStr trimmed)) then
          Normal {| code := 400;
                    payload := JObj [ (lit "error", JStr (lit "Transcription failed"));
                                      (lit "message", JStr (lit "Could not extract text from the audio file.")) ] |}
        else
          Normal {| code := 200;
                    payload := JObj [ (lit "success", JBool true);
                                      (lit "text", text) ] |})) in
      let response :=
        match attempt with
        | Normal r => r
        | Thrown message =>
            {| code := 500;
               payload := JObj [ (lit "error", JStr (lit "Transcription error"));
                                 (lit "message", JStr message) ] |}
        end in
      (response, unlink uploadedFile files)
  end.

(** *** POST /recap *)

Definition recapPrompt : jsstring :=
  lit "You are an insightful AI journal analyst... (same as your previous prompt)".

Definition recap_respond (settled : completion jsval) : HttpResponse :=
  match settled with
  | Normal recap =>
      {| code := 200;
         payload := JObj [ (lit "success", JBool true); (lit "recap", recap) ] |}
  | Thrown message =>
      {| code := 500;
         payload := JObj [ (lit "error", JStr (lit "Internal error"));
                           (lit "message", JStr message) ] |}
  end.

Definition recap (chain : list jsstring) (fuel : nat) (upstream : Upstream)
    (body : list (jsstring * jsval))
  : option HttpResponse * list Event :=
  let entries := default JUndefined (own (lit "entries") body) in
  let invalid :=
    (Some {| code := 400;
             payload := JObj [ (lit "error", JStr (lit "Invalid input"));
                               (lit "message", JStr (lit "Entries string required.")) ] |},
     []) in
  match entries with
  | JStr s =>
      if negb (truthy entries) || negb (truthy (JStr (trim s))) then invalid
      else
        let '(settled, trace) :=
          callOpenRouter chain fuel upstream 0 recapPrompt s 0 0 in
        (option_map recap_respond settled, trace)
  | _ => invalid
  end.

(** *** The handlers on any request body

    As in part_000: [const { entry } = req.body] throws inside the [try]
    block on a [req.body] that is [undefined] or [null], and the [catch]
    block answers 500 with the message of the error. *)

Definition analyze_request (chain : list jsstring) (fuel : nat)
    (upstream : Upstream) (req_body : jsval)
  : option HttpResponse * list Event :=
  match req_body with
  | JUndefined =>
      (Some (analyze_respond
               (Thrown (cannot_destructure (lit "entry") (lit "undefined")))), [])
  | JNull =>
      (Some (analyze_respond
               (Thrown (cannot_destructure (lit "entry") (lit "null")))), [])
  | JObj props => analyze chain fuel upstream props
  | JBool _ | JNum _ | JStr _ | JArr _ => analyze chain fuel upstream []
  end.

Definition recap_request (chain : list jsstring) (fuel : nat)
    (upstream : Upstream) (req_body : jsval)
  : option HttpResponse * list Event :=
  match req_body with
  | JUndefined =>
      (Some (recap_respond
               (Thrown (cannot_destructure (lit "entries") (lit "undefined")))), [])
  | JNull =>
      (Some (recap_respond
               (Thrown (cannot_destructure (lit "entries") (lit "null")))), [])
  | JObj props => recap chain fuel upstream props
  | JBool _ | JNum _ | JStr _ | JArr _ => recap chain fuel upstream []
  end.

(** *** The upload filter of multer *)

Definition fileFilter (originalname : jsstring) : completion bool :=
  if has_extension [lit "mp3"; lit "mp4"; lit "m4a"; lit "wav"; lit "webm"]
                   originalname
  then Normal true
  else Thrown (lit "Only audio/video files are allowed.").

End ServerJs.

(** ** Answers and inputs the properties speak of *)

Module Scenarios.

(** A 429 answer whose body parses. *)
Definition rate_limited (fetched : Fetched) : Prop :=
  exists response data,
    fetched = Resolves response /\ status response = 429%Z /\
    json response = Normal data.

(** The answer used in the examples: 429 with the body [{}]. *)
Definition too_many_requests : Response :=
  {| status := 429; statusText := lit "Too Many Requests";
     text := lit "{}"; json := Normal (JObj []) |}.

Definition always_limited : Upstream := fun _ _ => Resolves too_many_requests.

(** The states a call of part_000 goes through while every answer is a 429: the
    retry count is 0 except right after the restart at index 0. *)
Definition cycling (chain : list jsstring) (retryCount modelIndex : nat) : Prop :=
  modelIndex < length chain /\
  (retryCount = 0 \/ (retryCount = 1 /\ modelIndex = 0)).

(** [null] and [undefined]: the values a property read throws on. *)
Definition is_nullish (v : jsval) : bool :=
  match v with
  | JUndefined | JNull => true
  | _ => false
  end.

(** A success answer carrying [choices[0].message.content]. *)
Definition completion_body (content : jsval) : jsval :=
  JObj [ (lit "choices",
          JArr [ JObj [ (lit "message", JObj [ (lit "content", content) ]) ] ]) ].

(** A gateway's 502 with an HTML page as body. *)
Definition bad_gateway : Response :=
  {| status := 502; statusText := lit "Bad Gateway";
     text := lit "<html><body>502 Bad Gateway</body></html>";
     json := Thrown (lit "Unexpected token < in JSON at position 0") |}.

(** A 400 whose error message quotes a failed fetch of the provider. *)
Definition provider_error : Response :=
  {| status := 400; statusText := lit "Bad Request";
     text := lit "{" ++ dq ++ lit "error" ++ dq ++ lit ":{" ++ dq ++ lit "message"
               ++ dq ++ lit ":" ++ dq ++ lit "Provider returned error: fetch failed"
               ++ dq ++ lit "}}";
     json := Normal (JObj [ (lit "error",
                             JObj [ (lit "message",
                                     JStr (lit "Provider returned error: fetch failed")) ]) ]) |}.

(** A success answer whose message has no [content]. *)
Definition no_content : Response :=
  {| status := 200; statusText := lit "OK";
     text := lit "{" ++ dq ++ lit "choices" ++ dq ++ lit ":[{" ++ dq ++ lit "message"
               ++ dq ++ lit ":{}}]}";
     json := Normal (JObj [ (lit "choices",
                             JArr [ JObj [ (lit "message", JObj []) ] ]) ]) |}.

(** The tagged completion of the specification. *)
Definition tagged_negative : jsstring :=
  lit "[SENTIMENT: negative]" ++ [10%N] ++ lit "Text".

(** An entry the [/analyze] handlers refuse: none, not a string, the
    empty string, or white space only. *)
Definition invalid_entry (entry : jsval) : Prop :=
  match entry with
  | JStr s => forallb is_white s = true
  | _ => True
  end.

(** A success answer saying hello. *)
Definition greeting : Response :=
  {| status := 200; statusText := lit "OK";
     text := lit "{" ++ dq ++ lit "choices" ++ dq ++ lit ":[{" ++ dq ++ lit "message"
               ++ dq ++ lit ":{" ++ dq ++ lit "content" ++ dq ++ lit ":" ++ dq
               ++ lit "Hello" ++ dq ++ lit "}}]}";
     json := Normal (completion_body (JStr (lit "Hello"))) |}.

(** An entry of 10,001 letters. *)
Definition long_entry : jsstring := replicate (Z.to_nat 10001) 97%N.

(** An upload, the directory holding it, and a transcription endpoint
    that hears the text [t]. *)
Definition upload : jsstring := lit "uploads/1700000000000-k3x9.m4a".

Definition uploads : Files := {[ upload := [0; 0; 0; 24]%N ]}.

Definition heard (t : jsstring) : list N -> Fetched := fun _ =>
  Resolves {| status := 200; statusText := lit "OK";
              text := lit "{" ++ dq ++ lit "text" ++ dq ++ lit ":" ++ dq ++ t
                        ++ dq ++ lit "}";
              json := Normal (JObj [ (lit "text", JStr t) ]) |}.

(** An answer with status 429, whatever its body. *)
Definition answers_429 (fetched : Fetched) : Prop :=
  exists response, fetched = Resolves response /\ status response = 429%Z.

(** [data.choices[0].message.content] *)
Definition content_of (data : jsval) : completion jsval :=
  bind (get data (lit "choices")) (fun choices =>
  bind (get0 choices) (fun first =>
  bind (get first (lit "message")) (fun message =>
  get message (lit "content")))).

(** A 503 with a JSON error body, and an endpoint that always gives it. *)
Definition service_unavailable : Response :=
  {| status := 503; statusText := lit "Service Unavailable";
     text := lit "{" ++ dq ++ lit "error" ++ dq ++ lit ":{" ++ dq ++ lit "message"
               ++ dq ++ lit ":" ++ dq ++ lit "Upstream unavailable" ++ dq ++ lit "}}";
     json := Normal (JObj [ (lit "error",
                             JObj [ (lit "message",
                                     JStr (lit "Upstream unavailable")) ]) ]) |}.

Definition always_unavailable : Upstream := fun _ _ => Resolves service_unavailable.

(** An endpoint that cannot be reached. *)
Definition unreachable : Upstream := fun _ _ => Rejects (lit "fetch failed").

(** An endpoint that always says hello. *)
Definition always_greeting : Upstream := fun _ _ => Resolves greeting.

(** A 401 with a JSON error body. *)
Definition unauthorized : Response :=
  {| status := 401; statusText := lit "Unauthorized";
     text := lit "{" ++ dq ++ lit "error" ++ dq ++ lit ":{" ++ dq ++ lit "message"
               ++ dq ++ lit ":" ++ dq ++ lit "No auth credentials found" ++ dq
               ++ lit "}}";
     json := Normal (JObj [ (lit "error",
                             JObj [ (lit "message",
                                     JStr (lit "No auth credentials found")) ]) ]) |}.

(** A success answer whose content is [null], as for a tool call. *)
Definition null_content : Response :=
  {| status := 200; statusText := lit "OK";
     text := lit "{" ++ dq ++ lit "choices" ++ dq ++ lit ":[{" ++ dq ++ lit "message"
               ++ dq ++ lit ":{" ++ dq ++ lit "content" ++ dq ++ lit ":null}}]}";
     json := Normal (completion_body JNull) |}.

(** Entries of 50,001 letters. *)
Definition long_entries : jsstring := replicate (Z.to_nat 50001) 97%N.

(** A transcription endpoint that is down. *)
Definition deaf : list N -> Fetched := fun _ => Rejects (lit "fetch failed").

(** Two texts equal up to the case of their ASCII letters. *)
Definition same_ci (m p : jsstring) : Prop := map upper m = map upper p.

(** The five extensions the upload filters know. *)
Definition audio_extensions : list jsstring :=
  [ lit "mp3"; lit "mp4"; lit "m4a"; lit "wav"; lit "webm" ].

(** A name that ends in a dot and one of the extensions, in any case. *)
Definition ends_in_extension (exts : list jsstring) (name : jsstring) : Prop :=
  exists base variant ext,
    name = base ++ lit "." ++ variant /\ ext ∈ exts /\ same_ci variant ext.

End Scenarios.

(** * Properties *)

(** ** Strings *)

Module JSFacts.
Import Scenarios.

Lemma includes_skip p0 p before s :
  Forall (fun c => c <> p0) before ->
  includes (p0 :: p) (before ++ s) = includes (p0 :: p) s.
Proof.
  induction 1 as [|c before Hc _ IH]; [done|].
  cbn [app includes startsWith]. unfold eqb_char at 1.
  destruct (N.eqb_spec p0 c) as [->|_]; [done|]. exact IH.
Qed.

Lemma includes_app p before s :
  includes p s = true -> includes p (before ++ s) = true.
Proof.
  intros Hs. induction before as [|c before IH]; [done|].
  cbn [app includes]. rewrite IH. apply orb_true_r.
Qed.

Lemma includes_nonempty p0 p s : includes (p0 :: p) s = true -> s <> [].
Proof. by intros Hs ->. Qed.

(** The decimal rendering of an integer holds digits and a sign only. *)
Lemma of_uint_digits d :
  Forall (fun c => (48 <= c <= 57)%N) (lit (NilEmpty.string_of_uint d)).
Proof.
  induction d; cbn [lit NilEmpty.string_of_uint]; constructor;
    solve [done | vm_compute; by split].
Qed.

Lemma of_Z_no_letter z c :
  (57 < c)%N -> Forall (fun x => x <> c) (of_Z z).
Proof.
  intros Hc. unfold of_Z, NilEmpty.string_of_int.
  destruct (Z.to_int z) as [d|d]; cbn [lit append];
    [|constructor; [vm_compute in Hc |- *; by intros <-|]];
    (eapply Forall_impl; [apply of_uint_digits|simpl; intros; lia]).
Qed.

Lemma trimStart_white s : forallb is_white s = true -> trimStart s = [].
Proof.
  induction s as [|c s IH]; [done|]. simpl.
  intros [-> Hs]%andb_true_iff. by apply IH.
Qed.

(** A string of white space trims to the empty string. *)
Lemma trim_white s : forallb is_white s = true -> trim s = [].
Proof. intros Hs. unfold trim, trimEnd. by rewrite (trimStart_white s Hs). Qed.

End JSFacts.

(** ** The sentiment tag *)

Module TagFacts.
Import Scenarios JSFacts.

(** Whether the pattern matches does not depend on what the continuation
    returns, only on where it succeeds. *)
Lemma literal_ci_is_Some {A B} p :
  forall s (k : jsstring -> jsstring -> option A)
         (k' : jsstring -> jsstring -> option B),
    (forall m rest, is_Some (k m rest) <-> is_Some (k' m rest)) ->
    is_Some (literal_ci p s k) <-> is_Some (literal_ci p s k').
Proof.
  induction p as [|a p IH]; intros s k k' Hk; [apply Hk|].
  destruct s as [|b s]; cbn [literal_ci].
  - by rewrite <- !not_eq_None_Some.
  - destruct (eqb_char (upper a) (upper b)).
    + apply IH. intros m rest. apply Hk.
    + by rewrite <- !not_eq_None_Some.
Qed.

Lemma orelse_is_Some {A B} (x y : option A) (x' y' : option B) :
  (is_Some x <-> is_Some x') -> (is_Some y <-> is_Some y') ->
  is_Some (match x with Some r => Some r | None => y end) <->
  is_Some (match x' with Some r => Some r | None => y' end).
Proof.
  destruct x as [a|], x' as [b|]; intros Hx Hy; [done| | |done].
  - destruct (is_Some_None (A:=B)). by apply Hx.
  - destruct (is_Some_None (A:=A)). by apply Hx.
Qed.

Lemma spaces_is_Some {A B} s :
  forall (k : jsstring -> option A) (k' : jsstring -> option B),
    (forall rest, is_Some (k rest) <-> is_Some (k' rest)) ->
    is_Some (spaces s k) <-> is_Some (spaces s k').
Proof.
  induction s as [|c s IH]; intros k k' Hk; cbn [spaces]; [apply Hk|].
  destruct (is_white c); [|apply Hk].
  apply orelse_is_Some; [by apply IH|apply Hk].
Qed.

Lemma spaces_Some_total s : is_Some (spaces s (@Some jsstring)).
Proof.
  induction s as [|c s IH]; cbn [spaces]; [done|].
  destruct (is_white c); [|done]. by destruct (spaces s Some).
Qed.

Lemma polarity_is_Some {A B} s
    (k : jsstring -> jsstring -> option A) (k' : jsstring -> jsstring -> option B) :
  (forall m rest, is_Some (k m rest) <-> is_Some (k' m rest)) ->
  is_Some (polarity s k) <-> is_Some (polarity s k').
Proof.
  intros Hk. unfold polarity.
  apply orelse_is_Some; by apply literal_ci_is_Some.
Qed.

Lemma tag_here_is_Some {A B} s (k : jsstring -> option A) (k' : jsstring -> option B) :
  (forall rest, is_Some (k rest) <-> is_Some (k' rest)) ->
  is_Some (tag_here s k) <-> is_Some (tag_here s k').
Proof.
  intros Hk. unfold tag_here.
  apply literal_ci_is_Some. intros _ s1.
  apply spaces_is_Some. intros s2.
  apply polarity_is_Some. intros group1 s3.
  apply literal_ci_is_Some. intros _ s4.
  specialize (Hk s4). destruct (k s4), (k' s4); [done| | |done].
  - destruct (is_Some_None (A:=B)). by apply Hk.
  - destruct (is_Some_None (A:=A)). by apply Hk.
Qed.

Lemma search_is_Some {A B} s (k : jsstring -> option A) (k' : jsstring -> option B) :
  (forall rest, is_Some (k rest) <-> is_Some (k' rest)) ->
  is_Some (search s k) <-> is_Some (search s k').
Proof.
  intros Hk. induction s as [|c s IH]; cbn [search].
  - pose proof (tag_here_is_Some [] k k' Hk) as Hhere.
    destruct (tag_here [] k), (tag_here [] k'); [done| | |done].
    + destruct (is_Some_None (A:=jsstring * B)). by apply Hhere.
    + destruct (is_Some_None (A:=jsstring * A)). by apply Hhere.
  - pose proof (tag_here_is_Some (c :: s) k k' Hk) as Hhere.
    destruct (tag_here (c :: s) k), (tag_here (c :: s) k'); [done| | |].
    + destruct (is_Some_None (A:=jsstring * B)). by apply Hhere.
    + destruct (is_Some_None (A:=jsstring * A)). by apply Hhere.
    + destruct (search s k) as [[? ?]|], (search s k') as [[? ?]|]; [done| | |done].
      * destruct (is_Some_None (A:=jsstring * (jsstring * B))). by apply IH.
      * destruct (is_Some_None (A:=jsstring * (jsstring * A))). by apply IH.
Qed.

(** Without a tag, [replace] leaves the text as it is. *)
Lemma replace_tag_untagged s : match_tag s = None -> replace_tag s = s.
Proof.
  unfold match_tag, replace_tag. intros Hnone.
  assert (search s (@Some jsstring) = None) as Hsearch.
  { by destruct (search s Some) as [[? [? ?]]|]. }
  assert (search s (fun r => spaces r Some) = None) as ->; [|done].
  apply eq_None_not_Some. intros Hsome.
  apply (search_is_Some s _ (@Some jsstring)) in Hsome.
  - rewrite Hsearch in Hsome. by apply is_Some_None in Hsome.
  - intros rest. split; [done|intros _; apply spaces_Some_total].
Qed.

(** C7, the claim as stated fails: a completion without a tag is not
    handed back unchanged; [" hi"] comes back as ["hi"]. *)
Lemma untagged_text_not_unchanged :
  match_tag (lit " hi") = None /\
  extractNature (JStr (lit " hi")) = Normal (lit "positive") /\
  cleanedAnalysis (lit " hi") = lit "hi" /\
  cleanedAnalysis (lit " hi") <> lit " hi" /\
  payload (Part000.analyze_respond [] (Normal (JStr (lit " hi"))))
    = JObj [ (lit "success", JBool true); (lit "analysis", JStr (lit "hi"));
             (lit "nature", JStr (lit "positive")); (lit "timestamp", JStr []) ] /\
  payload (ServerJs.analyze_respond (Normal (JStr (lit " hi"))))
    = JObj [ (lit "success", JBool true); (lit "analysis", JStr (lit "hi"));
             (lit "nature", JStr (lit "positive")) ].
Proof. vm_compute. repeat split; done. Qed.

(** C7 (amended): for ["[SENTIMENT: negative]\nText"] the nature is
    ["negative"] and the text sent back is ["Text"]; for a completion
    without a tag the nature is ["positive"] and the text sent back is
    the completion with the white space at its two ends trimmed off.
    Both servers answer so. *)
Theorem sentiment_extracted_text_trimmed now :
  (extractNature (JStr tagged_negative) = Normal (lit "negative") /\
   cleanedAnalysis tagged_negative = lit "Text") /\
  forall s,
    match_tag s = None ->
    extractNature (JStr s) = Normal (lit "positive") /\
    cleanedAnalysis s = trim s /\
    Part000.analyze_respond now (Normal (JStr s))
      = {| code := 200;
           payload := JObj [ (lit "success", JBool true);
                             (lit "analysis", JStr (trim s));
                             (lit "nature", JStr (lit "positive"));
                             (lit "timestamp", JStr now) ] |} /\
    ServerJs.analyze_respond (Normal (JStr s))
      = {| code := 200;
           payload := JObj [ (lit "success", JBool true);
                             (lit "analysis", JStr (trim s));
                             (lit "nature", JStr (lit "positive")) ] |}.
Proof.
  split; [by vm_compute|].
  intros s Hnone.
  assert (extractNature (JStr s) = Normal (lit "positive")) as Hnature.
  { cbn [extractNature]. unfold extractNature_string. by rewrite Hnone. }
  assert (cleanedAnalysis s = trim s) as Hclean.
  { unfold cleanedAnalysis. by rewrite replace_tag_untagged. }
  split; [done|]. split; [done|].
  unfold Part000.analyze_respond, ServerJs.analyze_respond.
  cbn [bind]. rewrite Hnature. cbn [bind]. by rewrite Hclean.
Qed.

Lemma sentiment_extracted_text_trimmed_witness :
  cleanedAnalysis (lit " I feel fine. ") = trim (lit " I feel fine. ").
Proof.
  refine (proj1 (proj2 (proj2 (sentiment_extracted_text_trimmed [])
                          (lit " I feel fine. ") _))).
  vm_compute. reflexivity.
Defined.

End TagFacts.

(** ** The requester of part_000 under rate limiting *)

Module Part000Facts.
Import Part000 Scenarios JSFacts.

(** The equations of [callOpenRouter], one for each way an activation
    ends. *)
Section Equations.
Context (chain : list jsstring) (upstream : Upstream) (fuel n : nat)
        (systemPrompt userMessage : jsstring) (retryCount modelIndex : nat).

Let request : Request :=
  {| model := chain !! modelIndex; system := systemPrompt; user := userMessage |}.

Lemma callOpenRouter_return v :
  attempt chain retryCount modelIndex (upstream n request) = Return v ->
  callOpenRouter chain (S fuel) upstream n systemPrompt userMessage
                 retryCount modelIndex
    = (Some (Normal v), [Fetch request]).
Proof. intros H. cbn [callOpenRouter]. fold request. by rewrite H. Qed.

Lemma callOpenRouter_throw message :
  attempt chain retryCount modelIndex (upstream n request) = Throw message ->
  callOpenRouter chain (S fuel) upstream n systemPrompt userMessage
                 retryCount modelIndex
    = (Some (Thrown message), [Fetch request]).
Proof. intros H. cbn [callOpenRouter]. fold request. by rewrite H. Qed.

Lemma callOpenRouter_again ms r' m' :
  attempt chain retryCount modelIndex (upstream n request) = Again ms r' m' ->
  callOpenRouter chain (S fuel) upstream n systemPrompt userMessage
                 retryCount modelIndex
    = ((callOpenRouter chain fuel upstream (S n) systemPrompt userMessage r' m').1,
       Fetch request :: Sleep ms ::
       (callOpenRouter chain fuel upstream (S n) systemPrompt userMessage r' m').2).
Proof.
  intros H. cbn [callOpenRouter]. fold request. rewrite H.
  by destruct (callOpenRouter chain fuel upstream (S n) _ _ r' m').
Qed.

End Equations.

Lemma always_limited_rate_limited n request : rate_limited (always_limited n request).
Proof. exists too_many_requests, (JObj []). done. Qed.

Lemma fetch_failed_not_in_rate_limit :
  includes (lit "fetch failed") rate_limit_exceeded = false.
Proof. vm_compute. reflexivity. Qed.

Lemma fetch_failed_not_in_invalid_structure :
  includes (lit "fetch failed") invalid_structure = false.
Proof. vm_compute. reflexivity. Qed.

Lemma attempt_rate_limited chain retryCount modelIndex fetched :
  rate_limited fetched ->
  attempt chain retryCount modelIndex fetched =
    if (Z.of_nat modelIndex <? Z.of_nat (length chain) - 1)%Z
    then Again 2000 0 (modelIndex + 1)
    else if retryCount <? maxRetries
         then Again (backoff retryCount) (retryCount + 1) 0
         else Throw rate_limit_exceeded.
Proof.
  intros (response & data & -> & Hstatus & Hjson).
  unfold attempt, try_block. rewrite Hjson, Hstatus. simpl.
  destruct (Z.of_nat modelIndex <? Z.of_nat (length chain) - 1)%Z; [done|].
  destruct (retryCount <? maxRetries); [done|].
  unfold catch_block. rewrite fetch_failed_not_in_rate_limit. done.
Qed.

Lemma rate_limited_pending chain upstream :
  2 <= length chain ->
  (forall n request, rate_limited (upstream n request)) ->
  forall fuel n systemPrompt userMessage retryCount modelIndex,
    cycling chain retryCount modelIndex ->
    (callOpenRouter chain fuel upstream n systemPrompt userMessage
                    retryCount modelIndex).1 = None /\
    length (fetches (callOpenRouter chain fuel upstream n systemPrompt userMessage
                                    retryCount modelIndex).2) = fuel.
Proof.
  intros Hlen Hup. induction fuel as [|fuel IH]; intros n sp um r m [Hm Hr].
  - done.
  - cbn [callOpenRouter]. rewrite attempt_rate_limited by apply Hup.
    destruct (Z.of_nat m <? Z.of_nat (length chain) - 1)%Z eqn:Hlast.
    + apply Z.ltb_lt in Hlast.
      assert (cycling chain 0 (m + 1)) as Hc by (split; [lia|by left]).
      destruct (IH (S n) sp um 0 (m + 1) Hc) as [IH1 IH2].
      destruct (callOpenRouter chain fuel upstream (S n) sp um 0 (m + 1)).
      simpl in *. by rewrite IH1, IH2.
    + apply Z.ltb_ge in Hlast.
      assert (r = 0) as -> by (destruct Hr as [|[_ ->]]; [done|lia]).
      change (0 <? maxRetries) with true. cbn iota.
      assert (cycling chain (0 + 1) 0) as Hc by (split; [lia|by right]).
      destruct (IH (S n) sp um (0 + 1) 0 Hc) as [IH1 IH2].
      destruct (callOpenRouter chain fuel upstream (S n) sp um (0 + 1) 0).
      simpl in *. by rewrite IH1, IH2.
Qed.

(** A further activation is asked for at an index inside the chain. *)
Lemma attempt_again_in_chain chain retryCount modelIndex fetched ms r' m' :
  modelIndex < length chain ->
  attempt chain retryCount modelIndex fetched = Again ms r' m' ->
  m' < length chain.
Proof.
  intros Hm. unfold attempt, try_block, catch_block.
  destruct fetched as [message|response].
  { destruct (_ && _); intros; simplify_eq. done. }
  destruct (json response) as [data|message]; cbn [bind].
  2: { destruct (_ && _); intros; simplify_eq. done. }
  destruct (status response =? 429)%Z.
  { destruct (Z.of_nat modelIndex <? Z.of_nat (length chain) - 1)%Z eqn:Hlast.
    - apply Z.ltb_lt in Hlast. intros; simplify_eq. lia.
    - destruct (retryCount <? maxRetries); [intros; simplify_eq; lia|].
      destruct (_ && _); intros; simplify_eq. done. }
  destruct (negb (ok response)).
  - destruct (get data (lit "error")) as [error|?]; cbn [bind].
    2: { destruct (_ && _); intros; simplify_eq. done. }
    destruct (get_opt error (lit "message")) as [message|?]; cbn [bind].
    2: { destruct (_ && _); intros; simplify_eq. done. }
    destruct ((500 <=? status response)%Z && (retryCount <? maxRetries)).
    { intros; simplify_eq. done. }
    destruct (to_string _); cbn [bind];
      destruct (_ && _); intros; simplify_eq; done.
  - repeat match goal with
      | |- context [bind ?x _] => destruct x; cbn [bind]
      | |- context [if negb ?b then _ else _] => destruct b; cbn [negb]
      end;
      try (destruct (_ && _)); intros; simplify_eq; done.
Qed.

(** Whatever the endpoint answers, a call that starts inside the chain
    stays inside it. *)
Lemma models_in_chain chain upstream fuel :
  forall n systemPrompt userMessage retryCount modelIndex,
    modelIndex < length chain ->
    forall request,
      request ∈ fetches (callOpenRouter chain fuel upstream n systemPrompt
                                         userMessage retryCount modelIndex).2 ->
      exists m, model request = Some m /\ m ∈ chain.
Proof.
  induction fuel as [|fuel IH]; intros n sp um r m Hm request.
  - simpl. by intros ?%elem_of_nil.
  - cbn [callOpenRouter].
    set (req := {| model := chain !! m; system := sp; user := um |}).
    assert (exists x, model req = Some x /\ x ∈ chain) as Hreq.
    { destruct (lookup_lt_is_Some_2 chain m Hm) as [x Hx].
      exists x. split; [done|]. by eapply list_elem_of_lookup_2. }
    destruct (attempt chain r m (upstream n req)) as [v|msg|ms r' m'] eqn:Hstep.
    + simpl. intros ->%list_elem_of_singleton. done.
    + simpl. intros ->%list_elem_of_singleton. done.
    + assert (m' < length chain) as Hm' by (by eapply attempt_again_in_chain).
      specialize (IH (S n) sp um r' m' Hm' request).
      destruct (callOpenRouter chain fuel upstream (S n) sp um r' m').
      simpl in *. intros [->|Hin]%elem_of_cons; [done|by apply IH].
Qed.

(** With a single model the retry budget is what ends the call: three
    requests to that model, then the rate-limit error. *)
Lemma single_model_exhausts m upstream fuel systemPrompt userMessage :
  (forall n request, rate_limited (upstream n request)) ->
  let request := {| model := Some m; system := systemPrompt; user := userMessage |} in
  callOpenRouter [m] (3 + fuel) upstream 0 systemPrompt userMessage 0 0 =
    (Some (Thrown rate_limit_exceeded),
     [Fetch request; Sleep 3000; Fetch request; Sleep 6000; Fetch request]).
Proof.
  intros Hup request. change (3 + fuel) with (S (S (S fuel))).
  rewrite (callOpenRouter_again _ _ _ _ _ _ _ _ (backoff 0) 1 0)
    by (by rewrite attempt_rate_limited).
  rewrite (callOpenRouter_again _ _ _ _ _ _ _ _ (backoff 1) 2 0)
    by (by rewrite attempt_rate_limited).
  rewrite (callOpenRouter_throw _ _ _ _ _ _ _ _ rate_limit_exceeded)
    by (by rewrite attempt_rate_limited).
  reflexivity.
Qed.

(** C1 (as the code has it): for a chain of two or more models whose
    every request is answered 429, [callOpenRouter] never fails with the
    rate-limit error, however many answers it is given: after [fuel]
    requests it is still pending.  The retry at the last model restarts
    at index 0 and the switch to the next model resets [retryCount], so
    the retry budget is never used up.  Every model it queries is an
    entry of the chain. *)
Theorem all_rate_limited_never_exhausts
    chain upstream fuel systemPrompt userMessage :
  2 <= length chain ->
  (forall n request, rate_limited (upstream n request)) ->
  (callOpenRouter chain fuel upstream 0 systemPrompt userMessage 0 0).1 = None /\
  (callOpenRouter chain fuel upstream 0 systemPrompt userMessage 0 0).1
    <> Some (Thrown rate_limit_exceeded) /\
  forall request,
    request ∈ fetches (callOpenRouter chain fuel upstream 0 systemPrompt
                                       userMessage 0 0).2 ->
    exists m, model request = Some m /\ m ∈ chain.
Proof.
  intros Hlen Hup.
  assert (cycling chain 0 0) as Hc by (split; [lia|by left]).
  destruct (rate_limited_pending chain upstream Hlen Hup fuel 0 systemPrompt
              userMessage 0 0 Hc) as [Hpending _].
  split; [done|]. split; [by rewrite Hpending|].
  apply models_in_chain. lia.
Qed.

Lemma all_rate_limited_never_exhausts_witness :
  (callOpenRouter (MODEL_FALLBACKS None) 7 always_limited 0 [] [] 0 0).1 = None.
Proof.
  refine (proj1 (all_rate_limited_never_exhausts (MODEL_FALLBACKS None)
                   always_limited 7 [] [] _ _)).
  - simpl. lia.
  - apply always_limited_rate_limited.
Defined.

(** C2 (as the code has it): a 429 at the last model with
    [retryCount < maxRetries] sleeps [baseDelay * 2^retryCount] and calls
    again with [retryCount + 1], but at [modelIndex] 0, not at the last
    index: the request that follows the sleep names the first entry of
    the chain. *)
Theorem last_model_retry_restarts_at_first
    chain upstream fuel n systemPrompt userMessage retryCount :
  let last := length chain - 1 in
  let request i := {| model := chain !! i; system := systemPrompt;
                      user := userMessage |} in
  2 <= length chain ->
  rate_limited (upstream n (request last)) ->
  retryCount < maxRetries ->
  attempt chain retryCount last (upstream n (request last))
    = Again (backoff retryCount) (retryCount + 1) 0 /\
  0 <> last /\
  take 3 (callOpenRouter chain (2 + fuel) upstream n systemPrompt userMessage
                         retryCount last).2
    = [ Fetch (request last); Sleep (backoff retryCount); Fetch (request 0) ].
Proof.
  intros last request Hlen Hup Hr.
  assert (attempt chain retryCount last (upstream n (request last))
            = Again (backoff retryCount) (retryCount + 1) 0) as Hstep.
  { rewrite attempt_rate_limited by done.
    destruct (Z.ltb_spec (Z.of_nat last) (Z.of_nat (length chain) - 1)); [lia|].
    apply Nat.ltb_lt in Hr. by rewrite Hr. }
  split; [done|]. split; [lia|].
  change (2 + fuel) with (S (S fuel)).
  rewrite (callOpenRouter_again _ _ _ _ _ _ _ _ _ _ _ Hstep).
  cbn [snd callOpenRouter]. fold (request 0).
  destruct (attempt chain (retryCount + 1) 0 _) as [v|msg|ms r' m']; [done..|].
  by destruct (callOpenRouter chain fuel upstream _ _ _ _ _).
Qed.

Lemma last_model_retry_restarts_at_first_witness :
  take 3 (callOpenRouter (MODEL_FALLBACKS None) 2 always_limited 0 [] [] 0 4).2
    = [ Fetch {| model := Some (lit "openai/gpt-3.5-turbo"); system := []; user := [] |};
        Sleep 3000;
        Fetch {| model := Some (lit "deepseek/deepseek-r1:free"); system := []; user := [] |} ].
Proof.
  refine (proj2 (proj2 (last_model_retry_restarts_at_first (MODEL_FALLBACKS None)
                          always_limited 0 0 [] [] 0 _ _ _))).
  - simpl. lia.
  - apply always_limited_rate_limited.
  - unfold maxRetries. lia.
Defined.

(** C3 (as the code has it): with the chain of the source and an endpoint
    that answers 429 to every request, no number of remote calls ends
    [callOpenRouter]: for every bound there is a longer run still
    pending. *)
Theorem rate_limited_calls_unbounded OPENROUTER_MODEL systemPrompt userMessage :
  forall bound : nat,
  exists fuel,
    (callOpenRouter (MODEL_FALLBACKS OPENROUTER_MODEL) fuel always_limited 0
                    systemPrompt userMessage 0 0).1 = None /\
    bound < length (fetches (callOpenRouter (MODEL_FALLBACKS OPENROUTER_MODEL) fuel
                               always_limited 0 systemPrompt userMessage 0 0).2).
Proof.
  intros bound. exists (S bound).
  assert (cycling (MODEL_FALLBACKS OPENROUTER_MODEL) 0 0) as Hc
    by (split; [simpl; lia|by left]).
  destruct (rate_limited_pending (MODEL_FALLBACKS OPENROUTER_MODEL) always_limited
              ltac:(simpl; lia) always_limited_rate_limited (S bound) 0
              systemPrompt userMessage 0 0 Hc) as [-> ->].
  split; [done|lia].
Qed.

(** ** Server errors, client errors and success in part_000 *)

Lemma get_not_nullish v k : is_nullish v = false -> exists w, get v k = Normal w.
Proof. destruct v; intros; simplify_eq; by eexists. Qed.

Lemma get_opt_normal v k : exists w, get_opt v k = Normal w.
Proof. destruct v; by eexists. Qed.

(** A 5xx answer with a parsed body is retried at the same model while
    the budget lasts. *)
Lemma server_error_retried chain retryCount modelIndex response data :
  (500 <= status response)%Z ->
  json response = Normal data ->
  is_nullish data = false ->
  retryCount < maxRetries ->
  attempt chain retryCount modelIndex (Resolves response)
    = Again (backoff retryCount) (retryCount + 1) modelIndex.
Proof.
  intros Hstatus Hjson Hdata Hr. unfold attempt, try_block.
  rewrite Hjson. cbn [bind].
  destruct (Z.eqb_spec (status response) 429); [lia|].
  assert (ok response = false) as ->.
  { unfold ok. apply andb_false_iff. right. apply Z.leb_gt. lia. }
  cbn [negb].
  destruct (get_not_nullish data (lit "error") Hdata) as [error ->]. cbn [bind].
  destruct (get_opt_normal error (lit "message")) as [message ->]. cbn [bind].
  apply Z.leb_le in Hstatus. apply Nat.ltb_lt in Hr. by rewrite Hstatus, Hr.
Qed.

(** Moving on to the next model starts its retry count at 0. *)
Lemma model_switch_resets_retryCount chain retryCount modelIndex fetched :
  rate_limited fetched ->
  modelIndex + 1 < length chain ->
  attempt chain retryCount modelIndex fetched = Again 2000 0 (modelIndex + 1).
Proof.
  intros Hf Hm. rewrite attempt_rate_limited by done.
  destruct (Z.ltb_spec (Z.of_nat modelIndex) (Z.of_nat (length chain) - 1)); [done|lia].
Qed.

Lemma success_returned chain retryCount modelIndex response content :
  ok response = true ->
  json response = Normal (completion_body content) ->
  attempt chain retryCount modelIndex (Resolves response) = Return content.
Proof.
  intros Hok Hjson. unfold attempt, try_block. rewrite Hjson. cbn [bind].
  destruct (Z.eqb_spec (status response) 429) as [H429|_].
  { unfold ok in Hok. rewrite H429 in Hok. done. }
  rewrite Hok. reflexivity.
Qed.

(** A 5xx with a parsed body, then a success: the payload of the success
    comes back, after one backoff sleep, from the same model. *)
Lemma server_error_then_success
    chain upstream fuel systemPrompt userMessage retryCount modelIndex
    failure data success content :
  let request := {| model := chain !! modelIndex; system := systemPrompt;
                    user := userMessage |} in
  upstream 0 request = Resolves failure ->
  (500 <= status failure)%Z -> json failure = Normal data ->
  is_nullish data = false -> retryCount < maxRetries ->
  upstream 1 request = Resolves success ->
  ok success = true -> json success = Normal (completion_body content) ->
  callOpenRouter chain (2 + fuel) upstream 0 systemPrompt userMessage
                 retryCount modelIndex
    = (Some (Normal content),
       [Fetch request; Sleep (backoff retryCount); Fetch request]).
Proof.
  intros request H0 Hstatus Hjson Hdata Hr H1 Hok Hbody.
  change (2 + fuel) with (S (S fuel)).
  rewrite (callOpenRouter_again _ _ _ _ _ _ _ _ (backoff retryCount)
             (retryCount + 1) modelIndex)
    by (fold request; rewrite H0; by eapply server_error_retried).
  rewrite (callOpenRouter_return _ _ _ _ _ _ _ _ content)
    by (fold request; rewrite H1; by eapply success_returned).
  reflexivity.
Qed.

(** C4 (as the code has it): a 5xx answer whose body is not JSON is not
    retried although [retryCount < maxRetries]: [response.json()] throws
    before the status is looked at, the [catch] block re-throws what is
    not a network failure, and the call fails after its single request.
    (With a parsed body the retry, the success after it and the reset of
    [retryCount] on a model switch are as claimed: [server_error_retried],
    [server_error_then_success], [model_switch_resets_retryCount].) *)
Theorem server_error_unparsed_not_retried
    chain upstream fuel n systemPrompt userMessage retryCount modelIndex
    response message :
  let request := {| model := chain !! modelIndex; system := systemPrompt;
                    user := userMessage |} in
  upstream n request = Resolves response ->
  (500 <= status response)%Z ->
  retryCount < maxRetries ->
  json response = Thrown message ->
  includes (lit "fetch failed") message = false ->
  callOpenRouter chain (S fuel) upstream n systemPrompt userMessage
                 retryCount modelIndex
    = (Some (Thrown message), [Fetch request]).
Proof.
  intros request Hup _ _ Hjson Hff.
  apply callOpenRouter_throw. fold request. rewrite Hup.
  unfold attempt, try_block, catch_block. rewrite Hjson. cbn [bind].
  by rewrite Hff.
Qed.

Lemma server_error_unparsed_not_retried_witness :
  callOpenRouter (MODEL_FALLBACKS None) 3 (fun _ _ => Resolves bad_gateway) 0 [] [] 0 0
    = (Some (Thrown (lit "Unexpected token < in JSON at position 0")),
       [Fetch {| model := Some (lit "deepseek/deepseek-r1:free");
                 system := []; user := [] |}]).
Proof.
  refine (server_error_unparsed_not_retried (MODEL_FALLBACKS None)
            (fun _ _ => Resolves bad_gateway) 2 0 [] [] 0 0 bad_gateway
            (lit "Unexpected token < in JSON at position 0") _ _ _ _ _).
  - reflexivity.
  - simpl. lia.
  - unfold maxRetries. lia.
  - reflexivity.
  - vm_compute. reflexivity.
Defined.

(** Any other failure status with a parsed body fails at once with the
    API error, provided the message does not read as a network failure. *)
Lemma client_error_fails_at_once
    chain upstream fuel n systemPrompt userMessage retryCount modelIndex
    response data error message shown :
  let request := {| model := chain !! modelIndex; system := systemPrompt;
                    user := userMessage |} in
  upstream n request = Resolves response ->
  ok response = false -> status response <> 429%Z -> (status response < 500)%Z ->
  json response = Normal data ->
  get data (lit "error") = Normal error ->
  get_opt error (lit "message") = Normal message ->
  to_string (or_else message (JStr (statusText response))) = Normal shown ->
  includes (lit "fetch failed") shown = false ->
  callOpenRouter chain (S fuel) upstream n systemPrompt userMessage
                 retryCount modelIndex
    = (Some (Thrown (api_error (status response) shown)), [Fetch request]).
Proof.
  intros request Hup Hok H429 H500 Hjson Herror Hmessage Hshown Hff.
  apply callOpenRouter_throw. fold request. rewrite Hup.
  unfold attempt, try_block. rewrite Hjson. cbn [bind].
  destruct (Z.eqb_spec (status response) 429); [done|].
  rewrite Hok. cbn [negb]. rewrite Herror. cbn [bind].
  rewrite Hmessage. cbn [bind].
  destruct (Z.leb_spec 500 (status response)); [lia|]. cbn [andb].
  rewrite Hshown. cbn [bind]. unfold catch_block.
  assert (includes (lit "fetch failed") (api_error (status response) shown) = false)
    as ->; [|done].
  etransitivity; [|exact Hff]. unfold api_error. rewrite !app_assoc.
  apply (includes_skip 102%N (lit "etch failed")). rewrite !Forall_app. repeat split.
  - vm_compute. repeat constructor; discriminate.
  - by apply of_Z_no_letter.
  - vm_compute. repeat constructor; discriminate.
Qed.

(** C5 (as the code has it): the API error thrown for a 4xx is thrown
    inside the [try] block, so the [catch] block meant for network
    failures sees it; when the message of the answer contains "fetch
    failed" and [retryCount < maxRetries] the call sleeps and asks again
    instead of failing.  (When the message does not read as a network
    failure and the body parses, the call fails at once:
    [client_error_fails_at_once].) *)
Theorem client_error_mistaken_for_network_failure
    chain retryCount modelIndex response data error message :
  ok response = false ->
  status response <> 429%Z -> (status response < 500)%Z ->
  json response = Normal data ->
  get data (lit "error") = Normal error ->
  get_opt error (lit "message") = Normal (JStr message) ->
  includes (lit "fetch failed") message = true ->
  retryCount < maxRetries ->
  attempt chain retryCount modelIndex (Resolves response)
    = Again (backoff retryCount) (retryCount + 1) modelIndex.
Proof.
  intros Hok H429 H500 Hjson Herror Hmessage Hff Hr.
  unfold attempt, try_block. rewrite Hjson. cbn [bind].
  destruct (Z.eqb_spec (status response) 429); [done|].
  rewrite Hok. cbn [negb]. rewrite Herror. cbn [bind].
  rewrite Hmessage. cbn [bind].
  destruct (Z.leb_spec 500 (status response)); [lia|]. cbn [andb].
  assert (or_else (JStr message) (JStr (statusText response)) = JStr message) as ->.
  { unfold or_else. cbn [truthy].
    destruct message; [by apply includes_nonempty in Hff|done]. }
  cbn [to_string bind]. unfold catch_block, api_error.
  rewrite !app_assoc, (includes_app _ _ _ Hff).
  apply Nat.ltb_lt in Hr. by rewrite Hr.
Qed.

Lemma client_error_mistaken_for_network_failure_witness :
  attempt (MODEL_FALLBACKS None) 0 0 (Resolves provider_error) = Again 3000 1 0.
Proof.
  refine (client_error_mistaken_for_network_failure (MODEL_FALLBACKS None) 0 0
            provider_error _ _ (lit "Provider returned error: fetch failed")
            _ _ _ _ _ _ _ _);
    try reflexivity; try done; unfold maxRetries; lia.
Defined.

(** The same on a whole call: three requests where one was due. *)
Lemma provider_error_asked_three_times
    OPENROUTER_MODEL fuel systemPrompt userMessage :
  let request := {| model := MODEL_FALLBACKS OPENROUTER_MODEL !! 0;
                    system := systemPrompt; user := userMessage |} in
  callOpenRouter (MODEL_FALLBACKS OPENROUTER_MODEL) (3 + fuel)
                 (fun _ _ => Resolves provider_error) 0 systemPrompt userMessage 0 0
    = (Some (Thrown (lit "OpenRouter API error: 400 - Provider returned error: fetch failed")),
       [Fetch request; Sleep 3000; Fetch request; Sleep 6000; Fetch request]).
Proof.
  intros request. change (3 + fuel) with (S (S (S fuel))).
  rewrite (callOpenRouter_again _ _ _ _ _ _ _ _ 3000 1 0) by (vm_compute; reflexivity).
  rewrite (callOpenRouter_again _ _ _ _ _ _ _ _ 6000 2 0) by (vm_compute; reflexivity).
  rewrite (callOpenRouter_throw _ _ _ _ _ _ _ _
             (lit "OpenRouter API error: 400 - Provider returned error: fetch failed"))
    by (vm_compute; reflexivity).
  reflexivity.
Qed.

(** On the success answer [{choices:[{message:{}}]}] the call does not
    fail; it returns [undefined]. *)
Lemma content_absent_returns_undefined :
  ok no_content = true /\
  bind (json no_content) (fun data =>
    bind (get data (lit "choices")) (fun choices =>
    bind (get0 choices) (fun first =>
    bind (get first (lit "message")) (fun message =>
    get message (lit "content"))))) = Normal JUndefined /\
  callOpenRouter (MODEL_FALLBACKS None) 1 (fun _ _ => Resolves no_content) 0 [] [] 0 0
    = (Some (Normal JUndefined),
       [Fetch {| model := Some (lit "deepseek/deepseek-r1:free");
                 system := []; user := [] |}]).
Proof. vm_compute. done. Qed.

(** On a success answer whose body has [choices], [choices[0]] and
    [choices[0].message], the call returns the content when there is
    one; when one of the three is read and found missing, it fails with
    the invalid-structure error. *)
Theorem success_content_or_invalid_structure
    chain upstream fuel n systemPrompt userMessage retryCount modelIndex
    response data :
  let request := {| model := chain !! modelIndex; system := systemPrompt;
                    user := userMessage |} in
  let run := callOpenRouter chain (S fuel) upstream n systemPrompt userMessage
                            retryCount modelIndex in
  upstream n request = Resolves response ->
  ok response = true ->
  json response = Normal data ->
  (forall choices first message content,
      get data (lit "choices") = Normal choices -> truthy choices = true ->
      get0 choices = Normal first -> truthy first = true ->
      get first (lit "message") = Normal message -> truthy message = true ->
      get message (lit "content") = Normal content -> content <> JUndefined ->
      run = (Some (Normal content), [Fetch request])) /\
  ((exists choices,
      get data (lit "choices") = Normal choices /\
      (truthy choices = false \/
       exists first,
         get0 choices = Normal first /\
         (truthy first = false \/
          exists message,
            get first (lit "message") = Normal message /\
            truthy message = false))) ->
   run = (Some (Thrown invalid_structure), [Fetch request])).
Proof.
  intros request run Hup Hok Hjson.
  assert (forall step, try_block chain retryCount modelIndex (Resolves response)
                       = step ->
            step =
              bind (get data (lit "choices")) (fun choices =>
              if negb (truthy choices) then Thrown invalid_structure else
              bind (get0 choices) (fun first =>
              if negb (truthy first) then Thrown invalid_structure else
              bind (get first (lit "message")) (fun message =>
              if negb (truthy message) then Thrown invalid_structure else
              bind (get message (lit "content")) (fun content =>
              Normal (Return content)))))) as Htry.
  { intros step <-. unfold try_block. rewrite Hjson. cbn [bind].
    destruct (Z.eqb_spec (status response) 429) as [H429|_].
    { unfold ok in Hok. rewrite H429 in Hok. done. }
    by rewrite Hok. }
  split.
  - intros choices first message content Hc Tc Hf Tf Hm Tm Hcontent _.
    apply callOpenRouter_return. fold request. rewrite Hup. unfold attempt.
    rewrite (Htry _ eq_refl), Hc. cbn [bind]. rewrite Tc, Hf. cbn [bind negb].
    rewrite Tf, Hm. cbn [bind negb]. by rewrite Tm, Hcontent.
  - intros Hmissing.
    apply callOpenRouter_throw. fold request. rewrite Hup. unfold attempt.
    rewrite (Htry _ eq_refl).
    assert (catch_block retryCount modelIndex invalid_structure
            = Throw invalid_structure) as Hcatch.
    { unfold catch_block. by rewrite fetch_failed_not_in_invalid_structure. }
    destruct Hmissing as (choices & -> & Hchoices). cbn [bind].
    destruct (truthy choices) eqn:Tc; cbn [negb]; [|done].
    destruct Hchoices as [?|(first & -> & Hfirst)]; [done|]. cbn [bind].
    destruct (truthy first) eqn:Tf; cbn [negb]; [|done].
    destruct Hfirst as [?|(message & -> & Tm)]; [done|]. cbn [bind].
    by rewrite Tm.
Qed.

Lemma success_content_or_invalid_structure_witness :
  callOpenRouter (MODEL_FALLBACKS None) 1 (fun _ _ => Resolves greeting) 0 [] [] 0 0
    = (Some (Normal (JStr (lit "Hello"))),
       [Fetch {| model := Some (lit "deepseek/deepseek-r1:free");
                 system := []; user := [] |}]).
Proof.
  refine (proj1 (success_content_or_invalid_structure (MODEL_FALLBACKS None)
                   (fun _ _ => Resolves greeting) 0 0 [] [] 0 0 greeting
                   (completion_body (JStr (lit "Hello"))) _ _ _)
                _ _ _ _ _ _ _ _ _ _ _ _);
    try reflexivity; try discriminate.
Defined.

End Part000Facts.

(** ** The handlers *)

Module HandlerFacts.
Import Scenarios JSFacts Part000Facts.

(** C8: a request to [/analyze] whose entry is missing, not a string,
    empty or white space only is answered 400 "Invalid input" by both
    servers, and no request goes to the completion endpoint. *)
Theorem invalid_entry_rejected chain fuel upstream now body :
  invalid_entry (default JUndefined (own (lit "entry") body)) ->
  (exists response,
      Part000.analyze chain fuel upstream now body = (Some response, []) /\
      code response = 400%Z /\
      own (lit "error") (match payload response with JObj props => props | _ => [] end)
        = Some (JStr (lit "Invalid input"))) /\
  (exists response,
      ServerJs.analyze chain fuel upstream body = (Some response, []) /\
      code response = 400%Z /\
      own (lit "error") (match payload response with JObj props => props | _ => [] end)
        = Some (JStr (lit "Invalid input"))).
Proof.
  unfold Part000.analyze, ServerJs.analyze.
  destruct (default JUndefined (own (lit "entry") body)) as [| |b|r|s|l|props];
    cbn [invalid_entry]; intros Hinvalid;
    try (split; eexists; (split; [reflexivity|split; reflexivity])).
  rewrite (trim_white s Hinvalid). cbn [truthy].
  destruct (JS.eqb s []); cbn [negb orb JS.eqb length Z.of_nat Z.eqb];
    split; eexists; (split; [reflexivity|split; reflexivity]).
Qed.

Lemma invalid_entry_rejected_witness :
  exists response,
    Part000.analyze (Part000.MODEL_FALLBACKS None) 5 always_limited []
                    [ (lit "entry", JStr (lit "   ")) ] = (Some response, []) /\
    code response = 400%Z /\
    own (lit "error") (match payload response with JObj props => props | _ => [] end)
      = Some (JStr (lit "Invalid input")).
Proof.
  refine (proj1 (invalid_entry_rejected (Part000.MODEL_FALLBACKS None) 5
                   always_limited [] [ (lit "entry", JStr (lit "   ")) ] _)).
  vm_compute. reflexivity.
Defined.

(** Every request of a call carries the prompt and the message the call
    was given. *)
Lemma requests_carry_message chain upstream fuel :
  forall n systemPrompt userMessage retryCount modelIndex request,
    request ∈ fetches (Part000.callOpenRouter chain fuel upstream n systemPrompt
                         userMessage retryCount modelIndex).2 ->
    system request = systemPrompt /\ user request = userMessage.
Proof.
  induction fuel as [|fuel IH]; intros n sp um r m request.
  - simpl. by intros ?%elem_of_nil.
  - cbn [Part000.callOpenRouter].
    destruct (Part000.attempt chain r m _) as [v|msg|ms r' m'].
    + simpl. by intros ->%list_elem_of_singleton.
    + simpl. by intros ->%list_elem_of_singleton.
    + specialize (IH (S n) sp um r' m' request).
      destruct (Part000.callOpenRouter chain fuel upstream (S n) sp um r' m').
      simpl in *. intros [->|Hin]%elem_of_cons; [done|by apply IH].
Qed.

(** C10: an entry of more than 10,000 code units reaches the completion
    endpoint cut to its first 10,000; the answer of [/analyze] is made
    from the outcome of that call and the clock alone, so nothing in it
    tells of the cut. *)
Theorem long_entry_truncated chain fuel upstream now body s :
  own (lit "entry") body = Some (JStr s) ->
  (Z.of_nat (length s) > 10000)%Z ->
  trim s <> [] ->
  let run := Part000.callOpenRouter chain fuel upstream 0 Part000.systemPrompt
                                   (slice0 10000 s) 0 0 in
  Part000.analyze chain fuel upstream now body
    = (option_map (Part000.analyze_respond now) run.1, run.2) /\
  Z.of_nat (length (slice0 10000 s)) = 10000%Z /\
  slice0 10000 s `prefix_of` s /\
  forall request, request ∈ fetches run.2 -> user request = slice0 10000 s.
Proof.
  intros Hentry Hlong Hblank run. split; [|split; [|split]].
  - unfold Part000.analyze. rewrite Hentry. cbn [default from_option id].
    assert (truthy (JStr s) = true) as ->.
    { destruct s; [by destruct Hblank|done]. }
    cbn [negb].
    destruct (Z.eqb_spec (Z.of_nat (length (trim s))) 0) as [Hzero|_].
    { destruct (trim s); [done|simpl in Hzero; lia]. }
    destruct (Z.gtb_spec (Z.of_nat (length s)) 10000); [|lia].
    fold run. by destruct run.
  - unfold slice0. rewrite length_take. lia.
  - apply prefix_take.
  - intros request Hin. by apply requests_carry_message in Hin as [_ ?].
Qed.

Lemma long_entry_truncated_witness :
  Part000.analyze (Part000.MODEL_FALLBACKS None) 3 always_limited []
                  [ (lit "entry", JStr long_entry) ]
    = (option_map (Part000.analyze_respond [])
         (Part000.callOpenRouter (Part000.MODEL_FALLBACKS None) 3 always_limited 0
            Part000.systemPrompt (slice0 10000 long_entry) 0 0).1,
       (Part000.callOpenRouter (Part000.MODEL_FALLBACKS None) 3 always_limited 0
          Part000.systemPrompt (slice0 10000 long_entry) 0 0).2).
Proof.
  refine (proj1 (long_entry_truncated (Part000.MODEL_FALLBACKS None) 3
                   always_limited [] [ (lit "entry", JStr long_entry) ]
                   long_entry _ _ _)).
  - reflexivity.
  - unfold long_entry. rewrite length_replicate. lia.
  - vm_compute. discriminate.
Defined.

(** C9: once [transcribeAudio] has returned, whatever the text, the
    upload is no longer in the upload directory when the handler is
    done; so in both servers. *)
Theorem transcribed_upload_removed files whisper now path text :
  (Part000.transcribeAudio files whisper path = Normal text ->
   (Part000.transcribe files whisper now (Some path)).2 !! path = None) /\
  (ServerJs.transcribeAudio files whisper path = Normal text ->
   (ServerJs.transcribe files whisper (Some path)).2 !! path = None).
Proof.
  split; intros Hdone.
  - unfold Part000.transcribe. rewrite Hdone. simpl. apply lookup_delete_eq.
  - unfold ServerJs.transcribe. simpl. apply lookup_delete_eq.
Qed.

Lemma transcribed_upload_removed_witness :
  (Part000.transcribe uploads (heard (lit "hello")) [] (Some upload)).2 !! upload = None /\
  (ServerJs.transcribe uploads (heard []) (Some upload)).2 !! upload = None.
Proof.
  split.
  - refine (proj1 (transcribed_upload_removed uploads (heard (lit "hello")) [] upload
                     (JStr (lit "hello"))) _).
    vm_compute. reflexivity.
  - refine (proj2 (transcribed_upload_removed uploads (heard []) [] upload (JStr [])) _).
    vm_compute. reflexivity.
Defined.

End HandlerFacts.

(** ** The requester of server.js *)

Module ServerJsFacts.
Import ServerJs.

(** The only further activation is the switch to the next model. *)
Lemma attempt_again chain modelIndex fetched ms r' m' :
  attempt chain modelIndex fetched = Again ms r' m' ->
  m' = modelIndex + 1 /\ m' < length chain.
Proof.
  unfold attempt. destruct fetched as [message|response]; [done|].
  destruct (status response =? 429)%Z; cbn [andb].
  - destruct (Z.ltb_spec (Z.of_nat modelIndex) (Z.of_nat (length chain) - 1)).
    + intros; simplify_eq. lia.
    + destruct (negb (ok response)); [done|]. by destruct (bind _ _).
  - destruct (negb (ok response)); [done|]. by destruct (bind _ _).
Qed.

(** [callOpenRouter] of server.js settles within as many requests as
    there are models left in the chain. *)
Lemma callOpenRouter_settles chain upstream fuel :
  forall n systemPrompt userMessage retryCount modelIndex,
    0 < fuel -> length chain - modelIndex <= fuel ->
    is_Some (callOpenRouter chain fuel upstream n systemPrompt userMessage
                            retryCount modelIndex).1.
Proof.
  induction fuel as [|fuel IH]; intros n sp um r m Hpos Hfuel; [lia|].
  cbn [callOpenRouter].
  destruct (attempt chain m _) as [v|msg|ms r' m'] eqn:Hstep; [done..|].
  apply attempt_again in Hstep as [-> Hm'].
  specialize (IH (S n) sp um r' (m + 1)).
  destruct (callOpenRouter chain fuel upstream (S n) sp um r' (m + 1)).
  apply IH; lia.
Qed.

End ServerJsFacts.

(** ** The matchers, against what they match *)

Module MatcherFacts.
Import Scenarios JSFacts.

Lemma eqb_char_eq a b : eqb_char a b = true <-> a = b.
Proof. apply N.eqb_eq. Qed.

Lemma eqb_eq s : forall t, JS.eqb s t = true <-> s = t.
Proof.
  induction s as [|a s IH]; intros [|b t]; cbn [JS.eqb]; try done.
  rewrite andb_true_iff, eqb_char_eq, IH. split.
  - by intros [-> ->].
  - by intros [= -> ->].
Qed.

(** What a literal consumes is the literal up to case. *)
Lemma literal_ci_sound {A} p :
  forall s (k : jsstring -> jsstring -> option A) r,
    literal_ci p s k = Some r ->
    exists m rest, s = m ++ rest /\ same_ci m p /\ k m rest = Some r.
Proof.
  induction p as [|a p IH]; intros s k r; cbn [literal_ci].
  - intros Hk. exists [], s. by destruct s.
  - destruct s as [|b s]; [done|].
    destruct (eqb_char (upper a) (upper b)) eqn:Hab; [|done].
    apply eqb_char_eq in Hab.
    intros (m & rest & -> & Hm & Hk)%IH.
    exists (b :: m), rest. unfold same_ci in *. cbn [map]. by rewrite Hab, Hm.
Qed.

Lemma literal_ci_complete {A} p :
  forall m rest (k : jsstring -> jsstring -> option A),
    same_ci m p -> literal_ci p (m ++ rest) k = k m rest.
Proof.
  unfold same_ci. induction p as [|a p IH]; intros [|b m] rest k Hm; try done.
  cbn [map] in Hm. injection Hm as Hb Hm.
  cbn [app literal_ci]. rewrite Hb.
  assert (eqb_char (upper a) (upper a) = true) as -> by by apply eqb_char_eq.
  by rewrite IH.
Qed.

Lemma literal_ci_mismatch {A} a p b s (k : jsstring -> jsstring -> option A) :
  upper a <> upper b -> literal_ci (a :: p) (b :: s) k = None.
Proof.
  intros Hab. cbn [literal_ci].
  destruct (eqb_char (upper a) (upper b)) eqn:E; [|done].
  by apply eqb_char_eq in E.
Qed.

(** Lower-casing undoes the case folding on a lower-case word. *)
Lemma lower_of_same_ci m p :
  Forall (fun x => (97 <= x <= 122)%N) p -> same_ci m p -> toLowerCase m = p.
Proof.
  unfold same_ci, toLowerCase. intros Hp. revert m.
  induction Hp as [|x p Hx _ IH]; intros [|c m] Hm; try done.
  cbn [map] in *. injection Hm as Hc Hm. f_equal; [|by apply IH].
  revert Hc. unfold upper, lower.
  repeat match goal with
         | |- context [(?a <=? ?b)%N] => destruct (N.leb_spec a b)
         end; cbn [andb]; lia.
Qed.

Lemma spaces_sound {A} s :
  forall (k : jsstring -> option A) r,
    spaces s k = Some r -> exists ws rest, s = ws ++ rest /\ k rest = Some r.
Proof.
  induction s as [|c s IH]; intros k r; cbn [spaces].
  - intros Hk. by exists [], [].
  - destruct (is_white c); [|intros Hk; by exists [], (c :: s)].
    destruct (spaces s k) as [r'|] eqn:Hs.
    + intros [= ->]. apply IH in Hs as (ws & rest & -> & Hk).
      by exists (c :: ws), rest.
    + intros Hk. by exists [], (c :: s).
Qed.

(** [\s*] runs over all the white space in front when what follows it
    matches there. *)
Lemma spaces_app {A} ws s (k : jsstring -> option A) r :
  forallb is_white ws = true -> spaces s k = Some r ->
  spaces (ws ++ s) k = Some r.
Proof.
  intros Hws Hs. induction ws as [|c ws IH]; [done|].
  cbn [forallb] in Hws. apply andb_true_iff in Hws as [Hc Hws].
  cbn [app spaces]. by rewrite Hc, IH.
Qed.

Lemma spaces_Some s : spaces s (@Some jsstring) = Some (trimStart s).
Proof.
  induction s as [|c s IH]; [done|]. cbn [spaces trimStart].
  destruct (is_white c); [by rewrite IH|done].
Qed.

Lemma trimStart_idemp s : trimStart (trimStart s) = trimStart s.
Proof.
  induction s as [|c s IH]; [done|]. cbn [trimStart].
  destruct (is_white c) eqn:Hc; [done|]. cbn [trimStart]. by rewrite Hc.
Qed.

Lemma alternatives_sound {A} exts :
  forall s (k : jsstring -> jsstring -> option A) r,
    alternatives exts s k = Some r ->
    exists ext m rest,
      ext ∈ exts /\ s = m ++ rest /\ same_ci m ext /\ k m rest = Some r.
Proof.
  induction exts as [|e exts IH]; intros s k r; cbn [alternatives]; [done|].
  destruct (literal_ci e s k) as [r'|] eqn:He.
  - intros [= ->]. apply literal_ci_sound in He as (m & rest & -> & Hm & Hk).
    exists e, m, rest. split; [by left|done].
  - intros (ext & m & rest & Hin & H)%IH. exists ext, m, rest.
    split; [by right|done].
Qed.

Lemma alternatives_complete {A} exts :
  forall ext m rest (k : jsstring -> jsstring -> option A),
    ext ∈ exts -> same_ci m ext -> is_Some (k m rest) ->
    is_Some (alternatives exts (m ++ rest) k).
Proof.
  induction exts as [|e exts IH]; intros ext m rest k Hin Hm Hk;
    [by apply elem_of_nil in Hin|].
  cbn [alternatives].
  destruct (literal_ci e (m ++ rest) k) eqn:He; [done|].
  apply elem_of_cons in Hin as [->|Hin]; [|by eapply IH].
  rewrite literal_ci_complete in He by done. rewrite He in Hk.
  by apply is_Some_None in Hk.
Qed.

End MatcherFacts.

(** ** What the sentiment tag gives *)

Module TagExtras.
Import Scenarios JSFacts MatcherFacts.

Lemma polarity_words_lower :
  Forall (fun x => (97 <= x <= 122)%N) (lit "positive") /\
  Forall (fun x => (97 <= x <= 122)%N) (lit "negative").
Proof. split; vm_compute; repeat constructor; discriminate. Qed.

Lemma tag_here_group {A} s (k : jsstring -> option A) g a :
  tag_here s k = Some (g, a) ->
  same_ci g (lit "positive") \/ same_ci g (lit "negative").
Proof.
  unfold tag_here.
  intros (_ & s1 & _ & _ & H1)%literal_ci_sound.
  apply spaces_sound in H1 as (_ & s2 & _ & H2).
  assert (forall word,
            literal_ci word s2 (fun group1 s3 =>
              literal_ci (lit "]") s3 (fun _ s4 =>
                match k s4 with
                | Some a => Some (group1, a)
                | None => None
                end)) = Some (g, a) -> same_ci g word) as Hword.
  { intros word (m & s3 & _ & Hm & H3)%literal_ci_sound.
    apply literal_ci_sound in H3 as (_ & s4 & _ & _ & H4).
    destruct (k s4); by simplify_eq. }
  unfold polarity in H2.
  destruct (literal_ci (lit "positive") s2 _) as [[g' a']|] eqn:Hp.
  - simplify_eq. left. by apply Hword.
  - right. by apply Hword.
Qed.

Lemma search_group {A} s (k : jsstring -> option A) before g a :
  search s k = Some (before, (g, a)) ->
  same_ci g (lit "positive") \/ same_ci g (lit "negative").
Proof.
  revert before. induction s as [|c s IH]; intros before; cbn [search].
  - destruct (tag_here [] k) as [[g' a']|] eqn:Hhere; [|done].
    intros; simplify_eq; by eapply tag_here_group.
  - destruct (tag_here (c :: s) k) as [[g' a']|] eqn:Hhere.
    + intros; simplify_eq. by eapply tag_here_group.
    + destruct (search s k) as [[before' [g' a']]|]; [|done].
      intros; simplify_eq. by eapply IH.
Qed.

(** [extractNature] gives ["positive"] or ["negative"], in lower case,
    whatever the completion and however the tag in it is written. *)
Theorem nature_positive_or_negative s :
  extractNature (JStr s) = Normal (lit "positive") \/
  extractNature (JStr s) = Normal (lit "negative").
Proof.
  cbn [extractNature]. unfold extractNature_string, match_tag.
  destruct (search s Some) as [[before [g a]]|] eqn:Hsearch; [|by left].
  destruct polarity_words_lower as [Hp Hn].
  apply search_group in Hsearch as [Hg|Hg].
  - left. by rewrite (lower_of_same_ci _ _ Hp Hg).
  - right. by rewrite (lower_of_same_ci _ _ Hn Hg).
Qed.

Lemma letter_not_white c x :
  upper c = x -> (65 <= x <= 90)%N -> is_white c = false.
Proof.
  unfold upper, is_white. intros Hc Hx.
  assert ((65 <= c <= 90)%N \/ (97 <= c <= 122)%N) as Hrange.
  { revert Hc. destruct (N.leb_spec 97 c), (N.leb_spec c 122); cbn [andb]; lia. }
  repeat match goal with
         | |- context [(c =? ?k)%N] => destruct (N.eqb_spec c k); [lia|]
         end.
  destruct (N.leb_spec 8192 c); [lia|]. done.
Qed.

(** The pattern at the start of a completion that begins with a tag. *)
Lemma tag_here_tagged {A} tag ws word polarity rest (k : jsstring -> option A) a :
  same_ci tag (lit "[SENTIMENT:") ->
  forallb is_white ws = true ->
  polarity ∈ [lit "positive"; lit "negative"] ->
  same_ci word polarity ->
  k rest = Some a ->
  tag_here (tag ++ ws ++ word ++ lit "]" ++ rest) k = Some (word, a).
Proof.
  intros Htag Hws Hpol Hword Hk. unfold tag_here.
  rewrite literal_ci_complete by done.
  assert (forall p,
            same_ci word p ->
            literal_ci p (word ++ lit "]" ++ rest) (fun group1 s3 =>
              literal_ci (lit "]") s3 (fun _ s4 =>
                match k s4 with
                | Some a => Some (group1, a)
                | None => None
                end)) = Some (word, a)) as Hmatch.
  { intros p Hp. rewrite literal_ci_complete by done.
    rewrite (literal_ci_complete (lit "]") (lit "]") rest) by done.
    by rewrite Hk. }
  apply spaces_app; [done|].
  assert (polarity = lit "positive" \/ polarity = lit "negative") as Hcases.
  { apply elem_of_cons in Hpol as [?|Hpol]; [by left|].
    apply list_elem_of_singleton in Hpol. by right. }
  destruct word as [|c word']; [by destruct Hcases as [-> | ->]|].
  assert (is_white c = false) as Hc.
  { destruct Hcases as [-> | ->]; injection Hword as Hc _;
      (eapply letter_not_white; [exact Hc|vm_compute; by split]). }
  cbn [app spaces]. rewrite Hc. change (c :: word' ++ ?t) with ((c :: word') ++ t).
  unfold Common.polarity.
  destruct Hcases as [-> | ->].
  - by rewrite Hmatch.
  - rewrite (Hmatch (lit "negative") Hword).
    change (lit "positive") with (112%N :: lit "ositive").
    change ((c :: word') ++ lit "]" ++ rest) with (c :: word' ++ lit "]" ++ rest).
    rewrite literal_ci_mismatch; [done|].
    injection Hword as -> _. vm_compute. discriminate.
Qed.

Lemma search_here {A} s (k : jsstring -> option A) m :
  tag_here s k = Some m -> search s k = Some ([], m).
Proof. intros Hm. destruct s; cbn [search]; by rewrite Hm. Qed.

(** A completion that begins with the tag, written in any letter case
    and with any white space after the colon, gives the polarity of the
    tag in lower case, and the text after the tag, trimmed. *)
Theorem tagged_completion_read_back tag ws word polarity rest :
  same_ci tag (lit "[SENTIMENT:") ->
  forallb is_white ws = true ->
  polarity ∈ [lit "positive"; lit "negative"] ->
  same_ci word polarity ->
  extractNature (JStr (tag ++ ws ++ word ++ lit "]" ++ rest)) = Normal polarity /\
  cleanedAnalysis (tag ++ ws ++ word ++ lit "]" ++ rest) = trim rest.
Proof.
  intros Htag Hws Hpol Hword. split.
  - cbn [extractNature]. unfold extractNature_string, match_tag.
    rewrite (search_here _ _ (word, rest))
      by (by apply (tag_here_tagged tag ws word polarity)).
    f_equal. apply lower_of_same_ci; [|done].
    destruct polarity_words_lower.
    apply elem_of_cons in Hpol as [->|Hpol]; [done|].
    apply list_elem_of_singleton in Hpol. by subst.
  - unfold cleanedAnalysis, replace_tag.
    rewrite (search_here _ _ (word, trimStart rest))
      by (apply (tag_here_tagged tag ws word polarity); (done || apply spaces_Some)).
    cbn [app]. unfold trim. by rewrite trimStart_idemp.
Qed.

Lemma tagged_completion_read_back_witness :
  extractNature (JStr (lit "[sentiment:" ++ lit "  " ++ lit "Negative" ++ lit "]"
                         ++ lit " Rough day. "))
    = Normal (lit "negative") /\
  cleanedAnalysis (lit "[sentiment:" ++ lit "  " ++ lit "Negative" ++ lit "]"
                     ++ lit " Rough day. ")
    = trim (lit " Rough day. ").
Proof.
  refine (tagged_completion_read_back (lit "[sentiment:") (lit "  ") (lit "Negative")
            (lit "negative") (lit " Rough day. ") _ _ _ _).
  - vm_compute. reflexivity.
  - vm_compute. reflexivity.
  - apply elem_of_cons. right. by apply list_elem_of_singleton.
  - vm_compute. reflexivity.
Defined.

End TagExtras.

(** ** What the upload filters let through *)

Module UploadExtras.
Import Scenarios JSFacts MatcherFacts.

Lemma same_ci_dot m : same_ci m (lit ".") -> m = lit ".".
Proof.
  unfold same_ci. change (map upper (lit ".")) with [46%N].
  change (lit ".") with [46%N].
  destruct m as [|c [|? ?]]; try done.
  cbn [map]. intros [= Hc]. f_equal. revert Hc. unfold upper.
  destruct (N.leb_spec 97 c), (N.leb_spec c 122); cbn [andb]; lia.
Qed.

Lemma extension_here_spec exts s :
  is_Some (extension_here exts s) <->
  exists variant ext, s = lit "." ++ variant /\ ext ∈ exts /\ same_ci variant ext.
Proof.
  unfold extension_here. split.
  - intros [g Hg].
    apply literal_ci_sound in Hg as (dot & s1 & -> & Hdot & H1).
    apply same_ci_dot in Hdot as ->.
    apply alternatives_sound in H1 as (ext & m & rest & Hin & -> & Hm & Hend).
    destruct rest; [|done]. exists m, ext. by rewrite app_nil_r.
  - intros (variant & ext & -> & Hin & Hvariant).
    rewrite literal_ci_complete by done.
    rewrite <- (app_nil_r variant).
    by eapply alternatives_complete.
Qed.

Lemma search_extension_spec exts s :
  is_Some (search_extension exts s) <->
  exists base tail, s = base ++ tail /\ is_Some (extension_here exts tail).
Proof.
  induction s as [|c s IH]; cbn [search_extension].
  - destruct (extension_here exts []) eqn:Hhere.
    + split; [intros _|done]. exists [], []. by rewrite Hhere.
    + split; [by intros ?%is_Some_None|].
      intros (base & tail & Hs & Htail). symmetry in Hs.
      apply app_eq_nil in Hs as [-> ->]. by rewrite Hhere in Htail.
  - destruct (extension_here exts (c :: s)) eqn:Hhere.
    + split; [intros _|done]. exists [], (c :: s). by rewrite Hhere.
    + rewrite IH. split.
      * intros (base & tail & -> & Htail). by exists (c :: base), tail.
      * intros ([|c' base] & tail & Hs & Htail).
        { cbn [app] in Hs. subst tail. rewrite Hhere in Htail.
          by apply is_Some_None in Htail. }
        injection Hs as -> ->. by exists base, tail.
Qed.

Lemma has_extension_spec exts name :
  has_extension exts name = true <-> ends_in_extension exts name.
Proof.
  unfold has_extension, ends_in_extension.
  pose proof (search_extension_spec exts name) as Hspec.
  destruct (search_extension exts name) as [g|].
  - split; [intros _|done].
    destruct (proj1 Hspec ltac:(done)) as (base & tail & -> & Htail).
    apply extension_here_spec in Htail as (variant & ext & -> & Hin & Hv).
    by exists base, variant, ext.
  - split; [done|]. intros (base & variant & ext & -> & Hin & Hv).
    assert (is_Some (@None jsstring)) as Hnone; [|by apply is_Some_None in Hnone].
    apply Hspec. exists base, (lit "." ++ variant). split; [done|].
    apply extension_here_spec. by exists variant, ext.
Qed.

(** server.js lets an upload through exactly when its name ends in a dot
    and one of mp3, mp4, m4a, wav, webm, the letters in any case. *)
Theorem serverjs_filter_by_name originalname :
  ServerJs.fileFilter originalname = Normal true <->
  ends_in_extension audio_extensions originalname.
Proof.
  unfold ServerJs.fileFilter. rewrite <- has_extension_spec.
  unfold audio_extensions.
  destruct (has_extension _ originalname); split; done.
Qed.

(** part_000 lets through what server.js lets through and, whatever the
    name, an upload whose MIME type is on its list. *)
Theorem part000_filter_by_type_or_name mimetype originalname :
  Part000.fileFilter mimetype originalname = Normal true <->
  mimetype ∈ Part000.allowedTypes \/
  ServerJs.fileFilter originalname = Normal true.
Proof.
  unfold Part000.fileFilter, ServerJs.fileFilter.
  assert (existsb (fun t => JS.eqb t mimetype) Part000.allowedTypes = true
          <-> mimetype ∈ Part000.allowedTypes) as Htype.
  { rewrite existsb_exists. split.
    - intros (t & Hin & ->%eqb_eq). by apply list_elem_of_In.
    - intros Hin. exists mimetype. split; [by apply list_elem_of_In|by apply eqb_eq]. }
  assert (has_extension [lit "mp4"; lit "m4a"; lit "mp3"; lit "wav"; lit "webm"]
                        originalname = true
          <-> has_extension [lit "mp3"; lit "mp4"; lit "m4a"; lit "wav"; lit "webm"]
                            originalname = true) as Hname.
  { rewrite !has_extension_spec. unfold ends_in_extension.
    split; intros (base & variant & ext & -> & Hin & Hv);
      exists base, variant, ext; (split; [done|]); (split; [|done]);
      revert Hin; rewrite !elem_of_cons; tauto. }
  rewrite <- Htype.
  destruct (existsb _ _); cbn [orb]; [split; [by left|done]|].
  destruct (has_extension [lit "mp4"; _; _; _; _] originalname),
           (has_extension [lit "mp3"; _; _; _; _] originalname);
    split; try done; try (by right); try (by intros [?|?]).
  - intros _. discriminate (proj1 Hname eq_refl).
  - intros [?|_]; [done|]. discriminate (proj2 Hname eq_refl).
Qed.

End UploadExtras.

(** ** The requester of part_000, whatever the endpoint answers *)

Module RequesterExtras.
Import Part000 Scenarios JSFacts Part000Facts.

(** The three ways an activation asks for a further one: the switch to
    the next model on a 429, the restart at the first model on a 429 at
    the last one, and the retry at the same model. *)
Lemma attempt_again_cases chain retryCount modelIndex fetched ms r' m' :
  attempt chain retryCount modelIndex fetched = Again ms r' m' ->
  (ms = 2000%Z /\ r' = 0 /\ m' = modelIndex + 1 /\ modelIndex + 1 < length chain /\
   answers_429 fetched) \/
  (ms = backoff retryCount /\ r' = retryCount + 1 /\ m' = 0 /\
   retryCount < maxRetries /\ length chain <= modelIndex + 1 /\ answers_429 fetched) \/
  (ms = backoff retryCount /\ r' = retryCount + 1 /\ m' = modelIndex /\
   retryCount < maxRetries).
Proof.
  assert (forall message,
            catch_block retryCount modelIndex message = Again ms r' m' ->
            ms = backoff retryCount /\ r' = retryCount + 1 /\ m' = modelIndex /\
            retryCount < maxRetries) as Hcatch.
  { intros message. unfold catch_block.
    destruct (includes _ message); cbn [andb]; [|done].
    destruct (Nat.ltb_spec retryCount maxRetries); [|done].
    intros; by simplify_eq. }
  unfold attempt, try_block.
  destruct fetched as [message|response]; [intros H; right; right; by eapply Hcatch|].
  destruct (json response) as [data|message]; cbn [bind];
    [|intros H; right; right; by eapply Hcatch].
  destruct (Z.eqb_spec (status response) 429) as [H429|_].
  { assert (answers_429 (Resolves response)) by by exists response.
    destruct (Z.ltb_spec (Z.of_nat modelIndex) (Z.of_nat (length chain) - 1)).
    - intros; simplify_eq. left. repeat split; (done || lia).
    - destruct (Nat.ltb_spec retryCount maxRetries).
      + intros; simplify_eq. right; left. repeat split; (done || lia).
      + intros H'; right; right; by eapply Hcatch. }
  destruct (negb (ok response)).
  - destruct (get data (lit "error")) as [error|?]; cbn [bind];
      [|intros H; right; right; by eapply Hcatch].
    destruct (get_opt error (lit "message")) as [message|?]; cbn [bind];
      [|intros H; right; right; by eapply Hcatch].
    destruct (500 <=? status response)%Z; cbn [andb].
    + destruct (Nat.ltb_spec retryCount maxRetries).
      * intros; simplify_eq. right; right. by repeat split.
      * destruct (to_string _); cbn [bind]; intros H'; right; right; by eapply Hcatch.
    + destruct (to_string _); cbn [bind]; intros H'; right; right; by eapply Hcatch.
  - repeat match goal with
      | |- context [bind ?x _] => destruct x; cbn [bind]
      | |- context [if negb ?b then _ else _] => destruct b; cbn [negb]
      end;
      solve [done | intros H'; right; right; by eapply Hcatch].
Qed.

(** A value is returned only for a 2xx answer that carries it. *)
Lemma attempt_return chain retryCount modelIndex fetched v :
  attempt chain retryCount modelIndex fetched = Return v ->
  exists response data,
    fetched = Resolves response /\ ok response = true /\
    json response = Normal data /\ content_of data = Normal v.
Proof.
  assert (forall message,
            catch_block retryCount modelIndex message <> Return v) as Hcatch.
  { intros message. unfold catch_block. by destruct (_ && _). }
  unfold attempt, try_block.
  destruct fetched as [message|response]; [intros H; by apply Hcatch in H|].
  destruct (json response) as [data|message] eqn:Hjson; cbn [bind];
    [|intros H; by apply Hcatch in H].
  destruct (status response =? 429)%Z.
  { destruct (_ <? _)%Z; [done|]. destruct (_ <? _); [done|].
    intros H; by apply Hcatch in H. }
  destruct (ok response) eqn:Hok; cbn [negb].
  - intros H. exists response, data. repeat split; try done.
    revert H. unfold content_of.
    repeat match goal with
      | |- context [bind ?x _] => destruct x; cbn [bind]
      | |- context [if negb ?b then _ else _] => destruct b; cbn [negb]
      end;
      solve [by intros [= ->] | intros H; by apply Hcatch in H].
  - destruct (get data (lit "error")) as [error|?]; cbn [bind];
      [|intros H; by apply Hcatch in H].
    destruct (get_opt error (lit "message")) as [message|?]; cbn [bind];
      [|intros H; by apply Hcatch in H].
    destruct (_ && _); [done|].
    destruct (to_string _); cbn [bind]; intros H; by apply Hcatch in H.
Qed.

(** While the last model of the chain is never answered 429, the call
    settles: from [(retryCount, modelIndex)] within
    [3 * (length chain - modelIndex) - retryCount] requests, so within
    three requests a model from a fresh start. *)
Theorem settles_unless_last_limited chain upstream :
  (forall n request,
      model request = chain !! (length chain - 1) ->
      ~ answers_429 (upstream n request)) ->
  forall fuel n systemPrompt userMessage retryCount modelIndex,
    modelIndex < length chain ->
    retryCount <= maxRetries ->
    3 * (length chain - modelIndex) - retryCount <= fuel ->
    is_Some (callOpenRouter chain fuel upstream n systemPrompt userMessage
                            retryCount modelIndex).1 /\
    length (fetches (callOpenRouter chain fuel upstream n systemPrompt userMessage
                                    retryCount modelIndex).2)
      <= 3 * (length chain - modelIndex) - retryCount.
Proof.
  intros Hlast. unfold maxRetries.
  induction fuel as [|fuel IH]; intros n sp um r m Hm Hr Hfuel; [lia|].
  destruct (attempt chain r m
              (upstream n {| model := chain !! m; system := sp; user := um |}))
    as [v|message|ms r' m'] eqn:Hstep.
  - rewrite (callOpenRouter_return _ _ _ _ _ _ _ _ _ Hstep). simpl. split; [done|lia].
  - rewrite (callOpenRouter_throw _ _ _ _ _ _ _ _ _ Hstep). simpl. split; [done|lia].
  - rewrite (callOpenRouter_again _ _ _ _ _ _ _ _ _ _ _ Hstep). cbn [fst snd].
    apply attempt_again_cases in Hstep
      as [(_ & -> & -> & Hnext & _)|[(_ & _ & _ & _ & Hend & H429)|(_ & -> & -> & Hless)]].
    + destruct (IH (S n) sp um 0 (m + 1)) as [IH1 IH2]; [lia..|].
      split; [done|]. simpl. lia.
    + destruct (Hlast n {| model := chain !! m; system := sp; user := um |}); [|done].
      cbn [model]. f_equal. lia.
    + unfold maxRetries in Hless.
      destruct (IH (S n) sp um (r + 1) m) as [IH1 IH2]; [lia..|].
      split; [done|]. simpl. lia.
Qed.

Lemma settles_unless_last_limited_witness :
  is_Some (callOpenRouter (MODEL_FALLBACKS None) 15 always_unavailable 0 [] [] 0 0).1 /\
  length (fetches (callOpenRouter (MODEL_FALLBACKS None) 15 always_unavailable
                                  0 [] [] 0 0).2)
    <= 3 * (length (MODEL_FALLBACKS None) - 0) - 0.
Proof.
  refine (settles_unless_last_limited (MODEL_FALLBACKS None) always_unavailable _
            15 0 [] [] 0 0 _ _ _).
  - intros n request _ (response & [= <-] & Hstatus). discriminate.
  - simpl. lia.
  - unfold maxRetries. lia.
  - simpl. lia.
Defined.

(** Only a 429 makes the call change model: when no answer is a 429 the
    call settles within three requests, all of them to the model it
    started with. *)
Theorem one_model_unless_limited chain upstream :
  (forall n request, ~ answers_429 (upstream n request)) ->
  forall fuel n systemPrompt userMessage retryCount modelIndex,
    retryCount <= maxRetries ->
    3 - retryCount <= fuel ->
    is_Some (callOpenRouter chain fuel upstream n systemPrompt userMessage
                            retryCount modelIndex).1 /\
    length (fetches (callOpenRouter chain fuel upstream n systemPrompt userMessage
                                    retryCount modelIndex).2) <= 3 - retryCount /\
    forall request,
      request ∈ fetches (callOpenRouter chain fuel upstream n systemPrompt
                                         userMessage retryCount modelIndex).2 ->
      model request = chain !! modelIndex.
Proof.
  intros Hnever. unfold maxRetries.
  induction fuel as [|fuel IH]; intros n sp um r m Hr Hfuel; [lia|].
  destruct (attempt chain r m
              (upstream n {| model := chain !! m; system := sp; user := um |}))
    as [v|message|ms r' m'] eqn:Hstep.
  - rewrite (callOpenRouter_return _ _ _ _ _ _ _ _ _ Hstep). simpl.
    split; [done|]. split; [lia|]. by intros ? ->%list_elem_of_singleton.
  - rewrite (callOpenRouter_throw _ _ _ _ _ _ _ _ _ Hstep). simpl.
    split; [done|]. split; [lia|]. by intros ? ->%list_elem_of_singleton.
  - rewrite (callOpenRouter_again _ _ _ _ _ _ _ _ _ _ _ Hstep). cbn [fst snd].
    apply attempt_again_cases in Hstep
      as [(_ & _ & _ & _ & H429)|[(_ & _ & _ & _ & _ & H429)|(_ & -> & -> & Hless)]];
      [by destruct (Hnever n _ H429)..|].
    unfold maxRetries in Hless.
    destruct (IH (S n) sp um (r + 1) m) as (IH1 & IH2 & IH3); [lia..|].
    split; [done|]. split; [simpl; lia|].
    simpl. intros request [->|Hin]%elem_of_cons; [done|by apply IH3].
Qed.

Lemma one_model_unless_limited_witness :
  length (fetches (callOpenRouter (MODEL_FALLBACKS None) 3 always_unavailable
                                  0 [] [] 0 2).2) <= 3 - 0.
Proof.
  refine (proj1 (proj2 (one_model_unless_limited (MODEL_FALLBACKS None)
                          always_unavailable _ 3 0 [] [] 0 2 _ _))).
  - intros n request (response & [= <-] & Hstatus). discriminate.
  - unfold maxRetries. lia.
  - lia.
Defined.

(** A call started by a handler never sleeps longer than six seconds at
    a time: two seconds before a switch of model, three or six before a
    retry. *)
Theorem sleeps_bounded chain upstream fuel systemPrompt userMessage ms :
  Sleep ms ∈ (callOpenRouter chain fuel upstream 0 systemPrompt userMessage 0 0).2 ->
  ms = 2000%Z \/ ms = 3000%Z \/ ms = 6000%Z.
Proof.
  assert (forall fuel n r m,
            r <= 2 ->
            Sleep ms ∈ (callOpenRouter chain fuel upstream n systemPrompt
                                       userMessage r m).2 ->
            ms = 2000%Z \/ ms = 3000%Z \/ ms = 6000%Z) as Hgen.
  { clear fuel. induction fuel as [|fuel IH]; intros n r m Hr.
    { simpl. by intros ?%elem_of_nil. }
    destruct (attempt chain r m
                (upstream n {| model := chain !! m; system := systemPrompt;
                               user := userMessage |}))
      as [v|message|delay r' m'] eqn:Hstep.
    - rewrite (callOpenRouter_return _ _ _ _ _ _ _ _ _ Hstep). simpl.
      by intros ?%list_elem_of_singleton.
    - rewrite (callOpenRouter_throw _ _ _ _ _ _ _ _ _ Hstep). simpl.
      by intros ?%list_elem_of_singleton.
    - rewrite (callOpenRouter_again _ _ _ _ _ _ _ _ _ _ _ Hstep). cbn [snd].
      intros [?|[Hms|Hin]%elem_of_cons]%elem_of_cons; [done| |].
      + injection Hms as ->.
        apply attempt_again_cases in Hstep
          as [(-> & _)|[(-> & _ & _ & Hless & _)|(-> & _ & _ & Hless)]];
          [by left|..]; unfold maxRetries in Hless;
          (assert (r = 0 \/ r = 1) as [-> | ->] by lia);
          (right; (by left) || (by right)).
      + apply (IH (S n) r' m'); [|done].
        apply attempt_again_cases in Hstep
          as [(_ & -> & _)|[(_ & -> & _ & Hless & _)|(_ & -> & _ & Hless)]];
          unfold maxRetries in *; lia. }
  apply Hgen. lia.
Qed.

Lemma sleeps_bounded_witness :
  Sleep 3000 ∈ (callOpenRouter (MODEL_FALLBACKS None) 2 always_unavailable
                               0 [] [] 0 0).2 /\
  (3000%Z = 2000%Z \/ 3000%Z = 3000%Z \/ 3000%Z = 6000%Z).
Proof.
  assert (Sleep 3000 ∈ (callOpenRouter (MODEL_FALLBACKS None) 2 always_unavailable
                                       0 [] [] 0 0).2) as Hin.
  { vm_compute. apply elem_of_cons. right. apply elem_of_cons. by left. }
  split; [exact Hin|].
  exact (sleeps_bounded (MODEL_FALLBACKS None) always_unavailable 2 [] [] 3000 Hin).
Defined.

(** A call returns a value only when an answer with a 2xx status carried
    it as [choices[0].message.content]; no error status, no failed fetch
    ever gives a value. *)
Theorem value_only_from_success
    chain upstream fuel systemPrompt userMessage retryCount modelIndex v :
  forall n,
    (callOpenRouter chain fuel upstream n systemPrompt userMessage
                    retryCount modelIndex).1 = Some (Normal v) ->
    exists k request response data,
      request ∈ fetches (callOpenRouter chain fuel upstream n systemPrompt
                                         userMessage retryCount modelIndex).2 /\
      upstream k request = Resolves response /\
      ok response = true /\
      json response = Normal data /\
      content_of data = Normal v.
Proof.
  revert retryCount modelIndex.
  induction fuel as [|fuel IH]; intros r m n; [done|].
  destruct (attempt chain r m
              (upstream n {| model := chain !! m; system := systemPrompt;
                             user := userMessage |}))
    as [w|message|ms r' m'] eqn:Hstep.
  - rewrite (callOpenRouter_return _ _ _ _ _ _ _ _ _ Hstep). cbn [fst snd].
    intros [= ->].
    apply attempt_return in Hstep as (response & data & Hup & Hok & Hjson & Hv).
    exists n, {| model := chain !! m; system := systemPrompt; user := userMessage |},
      response, data.
    split; [simpl; by apply list_elem_of_singleton|done].
  - by rewrite (callOpenRouter_throw _ _ _ _ _ _ _ _ _ Hstep).
  - rewrite (callOpenRouter_again _ _ _ _ _ _ _ _ _ _ _ Hstep). cbn [fst snd].
    intros (k & request & response & data & Hin & H)%IH.
    exists k, request, response, data. split; [|done].
    simpl. apply elem_of_cons. by right.
Qed.

Lemma value_only_from_success_witness :
  exists k request response data,
    request ∈ fetches (callOpenRouter (MODEL_FALLBACKS None) 1 always_greeting
                         0 [] [] 0 0).2 /\
    always_greeting k request = Resolves response /\
    ok response = true /\
    json response = Normal data /\
    content_of data = Normal (JStr (lit "Hello")).
Proof.
  refine (value_only_from_success (MODEL_FALLBACKS None) always_greeting 1 [] []
            0 0 (JStr (lit "Hello")) 0 _).
  vm_compute. reflexivity.
Defined.

(** A fetch that fails as a network failure ("fetch failed") is tried
    again at the same model after three and after six seconds; the third
    failure is the outcome of the call. *)
Theorem network_failure_retried_twice
    chain upstream fuel n systemPrompt userMessage modelIndex :
  let request := {| model := chain !! modelIndex; system := systemPrompt;
                    user := userMessage |} in
  (forall k, exists message,
      upstream k request = Rejects message /\
      includes (lit "fetch failed") message = true) ->
  exists message,
    upstream (S (S n)) request = Rejects message /\
    callOpenRouter chain (3 + fuel) upstream n systemPrompt userMessage 0 modelIndex
      = (Some (Thrown message),
         [Fetch request; Sleep 3000; Fetch request; Sleep 6000; Fetch request]).
Proof.
  intros request Hdown.
  assert (forall k r,
            attempt chain r modelIndex (upstream k request)
              = if r <? maxRetries
                then Again (backoff r) (r + 1) modelIndex
                else match upstream k request with
                     | Rejects message => Throw message
                     | Resolves _ => Throw []
                     end) as Hstep.
  { intros k r. destruct (Hdown k) as (message & -> & Hff).
    unfold attempt, try_block, catch_block. rewrite Hff. cbn [andb].
    by destruct (r <? maxRetries). }
  destruct (Hdown (S (S n))) as (message & Hlast & _).
  exists message. split; [done|].
  change (3 + fuel) with (S (S (S fuel))).
  rewrite (callOpenRouter_again _ _ _ _ _ _ _ _ (backoff 0) 1 modelIndex)
    by (fold request; by rewrite Hstep).
  rewrite (callOpenRouter_again _ _ _ _ _ _ _ _ (backoff 1) 2 modelIndex)
    by (fold request; by rewrite Hstep).
  rewrite (callOpenRouter_throw _ _ _ _ _ _ _ _ message)
    by (fold request; by rewrite Hstep, Hlast).
  reflexivity.
Qed.

Lemma network_failure_retried_twice_witness :
  exists message,
    unreachable 2 {| model := MODEL_FALLBACKS None !! 0; system := []; user := [] |}
      = Rejects message /\
    callOpenRouter (MODEL_FALLBACKS None) 3 unreachable 0 [] [] 0 0
      = (Some (Thrown message),
         [Fetch {| model := MODEL_FALLBACKS None !! 0; system := []; user := [] |};
          Sleep 3000;
          Fetch {| model := MODEL_FALLBACKS None !! 0; system := []; user := [] |};
          Sleep 6000;
          Fetch {| model := MODEL_FALLBACKS None !! 0; system := []; user := [] |}]).
Proof.
  refine (network_failure_retried_twice (MODEL_FALLBACKS None) unreachable 0 0
            [] [] 0 _).
  intros k. exists (lit "fetch failed"). split; [reflexivity|].
  vm_compute. reflexivity.
Defined.

End RequesterExtras.

(** ** The handlers, end to end *)

Module HandlerExtras.
Import Scenarios JSFacts Part000Facts HandlerFacts.

(** A string with a character that is not white space does not trim to
    nothing. *)
Lemma trimStart_keeps s :
  existsb (fun c => negb (is_white c)) s = true -> trimStart s <> [].
Proof.
  induction s as [|c s IH]; [done|]. cbn [existsb trimStart].
  destruct (is_white c); [exact IH|done].
Qed.

Lemma trimStart_head s c rest : trimStart s = c :: rest -> is_white c = false.
Proof.
  induction s as [|d s IH]; [done|]. cbn [trimStart].
  destruct (is_white d) eqn:Hd; [exact IH|]. by intros [= <- _].
Qed.

Lemma trim_keeps s :
  existsb (fun c => negb (is_white c)) s = true -> trim s <> [].
Proof.
  intros Hs. unfold trim, trimEnd.
  pose proof (trimStart_keeps s Hs) as Hstart.
  destruct (trimStart s) as [|c rest] eqn:Htrim; [done|].
  apply trimStart_head in Htrim.
  intros Hnil. apply (f_equal (@rev char)) in Hnil. rewrite rev_involutive in Hnil.
  simpl in Hnil.
  assert (existsb (fun c => negb (is_white c)) (rev (c :: rest)) = true) as Hrev.
  { apply existsb_exists. exists c. split; [|by rewrite Htrim].
    apply in_rev. rewrite rev_involutive. by left. }
  by apply trimStart_keeps in Hrev.
Qed.

(** Every API error bears the mark the handlers look for. *)
Lemma api_error_mark status shown :
  includes (lit "OpenRouter API error") (Part000.api_error status shown) = true.
Proof. by vm_compute. Qed.

(** The mark of the rate-limit error is in an API error only when the
    message of the endpoint has it. *)
Lemma rate_limit_mark_in_api_error status shown :
  includes (lit "Rate limit exceeded") (Part000.api_error status shown)
    = includes (lit "Rate limit exceeded") shown.
Proof.
  unfold Part000.api_error.
  transitivity (includes (lit "Rate limit exceeded")
                  (of_Z status ++ lit " - " ++ shown)); [by vm_compute|].
  rewrite app_assoc.
  apply (includes_skip 82%N (lit "ate limit exceeded")).
  apply Forall_app. split; [by apply of_Z_no_letter|].
  vm_compute. repeat constructor; discriminate.
Qed.

(** [/analyze] of part_000 on a valid entry of at most 10,000 code units
    answered by a completion: one request, carrying the entry as it was
    sent (white space at its ends included), and a 200 with the nature
    and the cleaned text of the completion. *)
Theorem analyze_completion_answered
    chain fuel upstream now body s response completion :
  let request := {| model := chain !! 0; system := Part000.systemPrompt;
                    user := s |} in
  own (lit "entry") body = Some (JStr s) ->
  existsb (fun c => negb (is_white c)) s = true ->
  (Z.of_nat (length s) <= 10000)%Z ->
  upstream 0 request = Resolves response ->
  ok response = true ->
  json response = Normal (completion_body (JStr completion)) ->
  Part000.analyze chain (S fuel) upstream now body
    = (Some {| code := 200;
               payload := JObj [ (lit "success", JBool true);
                                 (lit "analysis", JStr (cleanedAnalysis completion));
                                 (lit "nature", JStr (extractNature_string completion));
                                 (lit "timestamp", JStr now) ] |},
       [Fetch request]).
Proof.
  intros request Hentry Hs Hshort Hup Hok Hjson.
  unfold Part000.analyze. rewrite Hentry. cbn [default from_option id].
  assert (truthy (JStr s) = true) as -> by by destruct s.
  cbn [negb].
  pose proof (trim_keeps s Hs) as Htrim.
  destruct (Z.eqb_spec (Z.of_nat (length (trim s))) 0) as [Hzero|_].
  { destruct (trim s); [done|simpl in Hzero; lia]. }
  destruct (Z.gtb_spec (Z.of_nat (length s)) 10000); [lia|].
  rewrite (callOpenRouter_return _ _ _ _ _ _ _ _ (JStr completion))
    by (fold request; rewrite Hup; by apply success_returned).
  reflexivity.
Qed.

Lemma analyze_completion_answered_witness :
  Part000.analyze (Part000.MODEL_FALLBACKS None) 1 always_greeting []
                  [ (lit "entry", JStr (lit " Today was good. ")) ]
    = (Some {| code := 200;
               payload := JObj [ (lit "success", JBool true);
                                 (lit "analysis", JStr (cleanedAnalysis (lit "Hello")));
                                 (lit "nature", JStr (extractNature_string (lit "Hello")));
                                 (lit "timestamp", JStr []) ] |},
       [Fetch {| model := Part000.MODEL_FALLBACKS None !! 0;
                 system := Part000.systemPrompt;
                 user := lit " Today was good. " |}]).
Proof.
  refine (analyze_completion_answered (Part000.MODEL_FALLBACKS None) 0
            always_greeting [] [ (lit "entry", JStr (lit " Today was good. ")) ]
            (lit " Today was good. ") greeting (lit "Hello") _ _ _ _ _ _);
    try reflexivity.
  vm_compute. discriminate.
Defined.

(** A 2xx answer whose content is not a string ([null], a missing
    content, a number, ...) makes [/analyze] of part_000 answer 500 with
    its fixed message: [callOpenRouter] hands the value on and
    [extractNature] throws on it. *)
Theorem analyze_content_not_string
    chain fuel upstream now body s response content :
  let request := {| model := chain !! 0; system := Part000.systemPrompt;
                    user := s |} in
  own (lit "entry") body = Some (JStr s) ->
  existsb (fun c => negb (is_white c)) s = true ->
  (Z.of_nat (length s) <= 10000)%Z ->
  upstream 0 request = Resolves response ->
  ok response = true ->
  json response = Normal (completion_body content) ->
  (forall t, content <> JStr t) ->
  Part000.analyze chain (S fuel) upstream now body
    = (Some {| code := 500;
               payload := JObj [ (lit "error", JStr (lit "Internal server error"));
                                 (lit "message",
                                  JStr (lit "An unexpected error occurred while analyzing your entry")) ] |},
       [Fetch request]).
Proof.
  intros request Hentry Hs Hshort Hup Hok Hjson Hcontent.
  unfold Part000.analyze. rewrite Hentry. cbn [default from_option id].
  assert (truthy (JStr s) = true) as -> by by destruct s.
  cbn [negb].
  pose proof (trim_keeps s Hs) as Htrim.
  destruct (Z.eqb_spec (Z.of_nat (length (trim s))) 0) as [Hzero|_].
  { destruct (trim s); [done|simpl in Hzero; lia]. }
  destruct (Z.gtb_spec (Z.of_nat (length s)) 10000); [lia|].
  rewrite (callOpenRouter_return _ _ _ _ _ _ _ _ content)
    by (fold request; rewrite Hup; by apply success_returned).
  cbn [option_map]. f_equal. f_equal.
  destruct content; try (by vm_compute). by destruct (Hcontent s0).
Qed.

Lemma analyze_content_not_string_witness :
  Part000.analyze (Part000.MODEL_FALLBACKS None) 1 (fun _ _ => Resolves null_content)
                  [] [ (lit "entry", JStr (lit "Today was good.")) ]
    = (Some {| code := 500;
               payload := JObj [ (lit "error", JStr (lit "Internal server error"));
                                 (lit "message",
                                  JStr (lit "An unexpected error occurred while analyzing your entry")) ] |},
       [Fetch {| model := Part000.MODEL_FALLBACKS None !! 0;
                 system := Part000.systemPrompt;
                 user := lit "Today was good." |}]).
Proof.
  refine (analyze_content_not_string (Part000.MODEL_FALLBACKS None) 0
            (fun _ _ => Resolves null_content) []
            [ (lit "entry", JStr (lit "Today was good.")) ]
            (lit "Today was good.") null_content JNull _ _ _ _ _ _ _);
    try reflexivity; discriminate.
Defined.

(** A 4xx answer (other than 429) with a JSON error body makes [/analyze]
    of part_000 answer 502 after its single request, the API error with
    the status and the message of the endpoint in [details]; unless that
    message itself reads "fetch failed" or "Rate limit exceeded". *)
Theorem analyze_client_error_502
    chain fuel upstream now body s response data error message shown :
  let request := {| model := chain !! 0; system := Part000.systemPrompt;
                    user := s |} in
  own (lit "entry") body = Some (JStr s) ->
  existsb (fun c => negb (is_white c)) s = true ->
  (Z.of_nat (length s) <= 10000)%Z ->
  upstream 0 request = Resolves response ->
  ok response = false -> status response <> 429%Z -> (status response < 500)%Z ->
  json response = Normal data ->
  get data (lit "error") = Normal error ->
  get_opt error (lit "message") = Normal message ->
  to_string (or_else message (JStr (statusText response))) = Normal shown ->
  includes (lit "fetch failed") shown = false ->
  includes (lit "Rate limit exceeded") shown = false ->
  Part000.analyze chain (S fuel) upstream now body
    = (Some {| code := 502;
               payload := JObj [ (lit "error", JStr (lit "External API error"));
                                 (lit "message",
                                  JStr (lit "Failed to communicate with AI service. Please try again later."));
                                 (lit "details",
                                  JStr (Part000.api_error (status response) shown)) ] |},
       [Fetch request]).
Proof.
  intros request Hentry Hs Hshort Hup Hok H429 H500 Hjson Herror Hmessage Hshown
         Hff Hrl.
  unfold Part000.analyze. rewrite Hentry. cbn [default from_option id].
  assert (truthy (JStr s) = true) as -> by by destruct s.
  cbn [negb].
  pose proof (trim_keeps s Hs) as Htrim.
  destruct (Z.eqb_spec (Z.of_nat (length (trim s))) 0) as [Hzero|_].
  { destruct (trim s); [done|simpl in Hzero; lia]. }
  destruct (Z.gtb_spec (Z.of_nat (length s)) 10000); [lia|].
  rewrite (client_error_fails_at_once chain upstream fuel 0 Part000.systemPrompt s
             0 0 response data error message shown) by done.
  cbn [option_map]. unfold Part000.analyze_respond. cbn [bind].
  rewrite rate_limit_mark_in_api_error, Hrl.
  by rewrite api_error_mark.
Qed.

Lemma analyze_client_error_502_witness :
  Part000.analyze (Part000.MODEL_FALLBACKS None) 1 (fun _ _ => Resolves unauthorized)
                  [] [ (lit "entry", JStr (lit "Today was good.")) ]
    = (Some {| code := 502;
               payload := JObj [ (lit "error", JStr (lit "External API error"));
                                 (lit "message",
                                  JStr (lit "Failed to communicate with AI service. Please try again later."));
                                 (lit "details",
                                  JStr (Part000.api_error 401 (lit "No auth credentials found"))) ] |},
       [Fetch {| model := Part000.MODEL_FALLBACKS None !! 0;
                 system := Part000.systemPrompt;
                 user := lit "Today was good." |}]).
Proof.
  refine (analyze_client_error_502 (Part000.MODEL_FALLBACKS None) 0
            (fun _ _ => Resolves unauthorized) []
            [ (lit "entry", JStr (lit "Today was good.")) ]
            (lit "Today was good.") unauthorized _ _ _
            (lit "No auth credentials found") _ _ _ _ _ _ _ _ _ _ _ _ _);
    try reflexivity; discriminate.
Defined.

(** [/recap] refuses entries that are missing, not a string, empty or
    white space only with a 400 "Invalid input", in both servers, and
    asks the completion endpoint nothing. *)
Theorem recap_invalid_rejected chain fuel upstream now body :
  invalid_entry (default JUndefined (own (lit "entries") body)) ->
  (exists response,
      Part000.recap chain fuel upstream now body = (Some response, []) /\
      code response = 400%Z /\
      own (lit "error") (match payload response with JObj props => props | _ => [] end)
        = Some (JStr (lit "Invalid input"))) /\
  (exists response,
      ServerJs.recap chain fuel upstream body = (Some response, []) /\
      code response = 400%Z /\
      own (lit "error") (match payload response with JObj props => props | _ => [] end)
        = Some (JStr (lit "Invalid input"))).
Proof.
  unfold Part000.recap, ServerJs.recap.
  destruct (default JUndefined (own (lit "entries") body)) as [| |b|r|s|l|props];
    cbn [invalid_entry]; intros Hinvalid;
    try (split; eexists; (split; [reflexivity|split; reflexivity])).
  rewrite (trim_white s Hinvalid). cbn [truthy].
  destruct (JS.eqb s []); cbn [negb orb JS.eqb length Z.of_nat Z.eqb];
    split; eexists; (split; [reflexivity|split; reflexivity]).
Qed.

Lemma recap_invalid_rejected_witness :
  exists response,
    ServerJs.recap (ServerJs.MODEL_FALLBACKS None) 5 always_limited
                   [ (lit "entries", JNum (lit "7")) ] = (Some response, []) /\
    code response = 400%Z /\
    own (lit "error") (match payload response with JObj props => props | _ => [] end)
      = Some (JStr (lit "Invalid input")).
Proof.
  refine (proj2 (recap_invalid_rejected (ServerJs.MODEL_FALLBACKS None) 5
                   always_limited [] [ (lit "entries", JNum (lit "7")) ] _)).
  exact I.
Defined.

(** [/recap] of part_000 refuses entries of more than 50,000 code units
    with a 400 and no request; up to 50,000 it sends them whole.
    server.js has no such bound and sends entries of any length whole. *)
Theorem recap_length_bound chain fuel upstream now body s :
  own (lit "entries") body = Some (JStr s) ->
  existsb (fun c => negb (is_white c)) s = true ->
  ((Z.of_nat (length s) > 50000)%Z ->
   Part000.recap chain fuel upstream now body
     = (Some (Part000.invalid_input
                (lit "Entries are too long. Maximum 50,000 characters allowed.")),
        [])) /\
  ((Z.of_nat (length s) <= 50000)%Z ->
   Part000.recap chain fuel upstream now body
     = (option_map (Part000.recap_respond now)
          (Part000.callOpenRouter chain fuel upstream 0 Part000.recapPrompt s 0 0).1,
        (Part000.callOpenRouter chain fuel upstream 0 Part000.recapPrompt s 0 0).2)) /\
  ServerJs.recap chain fuel upstream body
    = (option_map ServerJs.recap_respond
         (ServerJs.callOpenRouter chain fuel upstream 0 ServerJs.recapPrompt s 0 0).1,
       (ServerJs.callOpenRouter chain fuel upstream 0 ServerJs.recapPrompt s 0 0).2).
Proof.
  intros Hentries Hs.
  pose proof (trim_keeps s Hs) as Htrim.
  assert (truthy (JStr s) = true) as Htruthy by by destruct s.
  assert ((Z.of_nat (length (trim s)) =? 0)%Z = false) as Hlen.
  { apply Z.eqb_neq. destruct (trim s); [done|simpl; lia]. }
  unfold Part000.recap, ServerJs.recap.
  rewrite Hentries. cbn [default from_option id]. rewrite Htruthy, Hlen.
  cbn [negb orb].
  assert (truthy (JStr (trim s)) = true) as -> by by destruct (trim s).
  cbn [negb]. repeat split.
  - intros Hlong. by destruct (Z.gtb_spec (Z.of_nat (length s)) 50000); [|lia].
  - intros Hshort. destruct (Z.gtb_spec (Z.of_nat (length s)) 50000); [lia|].
    by destruct (Part000.callOpenRouter _ _ _ _ _ _ _ _).
  - by destruct (ServerJs.callOpenRouter _ _ _ _ _ _ _ _).
Qed.

Lemma recap_length_bound_witness :
  Part000.recap (Part000.MODEL_FALLBACKS None) 5 always_greeting []
                [ (lit "entries", JStr long_entries) ]
    = (Some (Part000.invalid_input
               (lit "Entries are too long. Maximum 50,000 characters allowed.")),
       []).
Proof.
  refine (proj1 (recap_length_bound (Part000.MODEL_FALLBACKS None) 5 always_greeting
                   [] [ (lit "entries", JStr long_entries) ] long_entries _ _) _).
  - reflexivity.
  - vm_compute. reflexivity.
  - unfold long_entries. rewrite length_replicate. lia.
Defined.

(** [/transcribe] touches no file but the upload: every other file of
    the upload directory is there afterwards as before, in both servers
    and whatever the outcome. *)
Theorem transcribe_leaves_other_files files whisper now file other :
  file <> Some other ->
  (Part000.transcribe files whisper now file).2 !! other = files !! other /\
  (ServerJs.transcribe files whisper file).2 !! other = files !! other.
Proof.
  intros Hother. unfold Part000.transcribe, ServerJs.transcribe.
  destruct file as [path|]; [|done].
  assert (path <> other) by congruence.
  split.
  - destruct (Part000.transcribeAudio files whisper path); [|done].
    by apply lookup_delete_ne.
  - by apply lookup_delete_ne.
Qed.

Lemma transcribe_leaves_other_files_witness :
  (Part000.transcribe uploads (heard (lit "hello")) [] (Some (lit "uploads/other.wav"))).2
    !! upload = uploads !! upload /\
  (ServerJs.transcribe uploads (heard (lit "hello")) (Some (lit "uploads/other.wav"))).2
    !! upload = uploads !! upload.
Proof.
  refine (transcribe_leaves_other_files uploads (heard (lit "hello")) []
            (Some (lit "uploads/other.wav")) upload _).
  vm_compute. discriminate.
Defined.

(** When the transcription fails, part_000 answers 500 and leaves the
    upload in the upload directory; server.js answers 500 with the
    message of the failure and has removed the upload. *)
Theorem transcribe_failure files whisper now path message :
  (Part000.transcribeAudio files whisper path = Thrown message ->
   code (Part000.transcribe files whisper now (Some path)).1 = 500%Z /\
   (Part000.transcribe files whisper now (Some path)).2 = files) /\
  (ServerJs.transcribeAudio files whisper path = Thrown message ->
   (ServerJs.transcribe files whisper (Some path)).1
     = {| code := 500;
          payload := JObj [ (lit "error", JStr (lit "Transcription error"));
                            (lit "message", JStr message) ] |} /\
   (ServerJs.transcribe files whisper (Some path)).2 !! path = None).
Proof.
  split; intros Hfail.
  - unfold Part000.transcribe. by rewrite Hfail.
  - unfold ServerJs.transcribe. rewrite Hfail. cbn [bind fst snd].
    split; [done|]. apply lookup_delete_eq.
Qed.

Lemma transcribe_failure_witness :
  (Part000.transcribe uploads deaf [] (Some upload)).2 = uploads /\
  (ServerJs.transcribe uploads deaf (Some upload)).2 !! upload = None.
Proof.
  split.
  - refine (proj2 (proj1 (transcribe_failure uploads deaf [] upload
                            (lit "fetch failed")) _)).
    vm_compute. reflexivity.
  - refine (proj2 (proj2 (transcribe_failure uploads deaf [] upload
                            (lit "fetch failed")) _)).
    vm_compute. reflexivity.
Defined.

(** A transcription that is empty or white space only: server.js answers
    400 "Transcription failed"; part_000 answers 200 with that text. *)
Theorem blank_transcription files whisper now path t :
  forallb is_white t = true ->
  (ServerJs.transcribeAudio files whisper path = Normal (JStr t) ->
   (ServerJs.transcribe files whisper (Some path)).1
     = {| code := 400;
          payload := JObj [ (lit "error", JStr (lit "Transcription failed"));
                            (lit "message",
                             JStr (lit "Could not extract text from the audio file.")) ] |}) /\
  (Part000.transcribeAudio files whisper path = Normal (JStr t) ->
   (Part000.transcribe files whisper now (Some path)).1
     = {| code := 200;
          payload := JObj [ (lit "success", JBool true); (lit "text", JStr t);
                            (lit "timestamp", JStr now) ] |}).
Proof.
  intros Hblank. split; intros Hdone.
  - unfold ServerJs.transcribe. rewrite Hdone. cbn [bind ServerJs.trim_of].
    by rewrite (trim_white t Hblank).
  - unfold Part000.transcribe. by rewrite Hdone.
Qed.

Lemma blank_transcription_witness :
  (ServerJs.transcribe uploads (heard (lit "  ")) (Some upload)).1
    = {| code := 400;
         payload := JObj [ (lit "error", JStr (lit "Transcription failed"));
                           (lit "message",
                            JStr (lit "Could not extract text from the audio file.")) ] |}.
Proof.
  refine (proj1 (blank_transcription uploads (heard (lit "  ")) [] upload (lit "  ") _) _).
  - reflexivity.
  - vm_compute. reflexivity.
Defined.

(** [transcribeAudio] returns only for a 2xx answer to the bytes of the
    file, and what it returns is the empty string or a truthy value,
    never [undefined] or [null]; so in both servers. *)
Theorem transcribeAudio_returns files whisper path v :
  (Part000.transcribeAudio files whisper path = Normal v \/
   ServerJs.transcribeAudio files whisper path = Normal v) ->
  (exists fileBuffer response,
      files !! path = Some fileBuffer /\
      whisper fileBuffer = Resolves response /\ ok response = true) /\
  (v = JStr [] \/ truthy v = true).
Proof.
  unfold Part000.transcribeAudio, ServerJs.transcribeAudio.
  destruct (files !! path) as [fileBuffer|] eqn:Hfile; [|by intros [?|?]].
  destruct (whisper fileBuffer) as [message|response] eqn:Hheard;
    [by intros [?|?]|].
  destruct (ok response) eqn:Hok; cbn [negb].
  - intros Hv. split; [by exists fileBuffer, response|].
    assert (bind (json response) (fun data =>
              bind (get data (lit "text")) (fun t => Normal (or_else t (JStr []))))
            = Normal v) as Hbind by by destruct Hv.
    destruct (json response) as [data|]; [|done]. cbn [bind] in Hbind.
    destruct (get data (lit "text")) as [t|]; [|done]. cbn [bind] in Hbind.
    injection Hbind as <-. unfold or_else.
    destruct (truthy t) eqn:Ht; [by right|by left].
  - intros [Hv|Hv]; [|done]. exfalso. revert Hv.
    repeat match goal with
           | |- context [bind ?x _] => destruct x; cbn [bind]
           end; done.
Qed.

Lemma transcribeAudio_returns_witness :
  (exists fileBuffer response,
      uploads !! upload = Some fileBuffer /\
      heard [] fileBuffer = Resolves response /\ ok response = true) /\
  (JStr [] = JStr [] \/ truthy (JStr []) = true).
Proof.
  refine (transcribeAudio_returns uploads (heard []) upload (JStr []) _).
  left. vm_compute. reflexivity.
Defined.

End HandlerExtras.

(** ** The requester of server.js, whatever the endpoint answers *)

Module ServerJsExtras.
Import ServerJs Scenarios ServerJsFacts.

Section Equations.
Context (chain : list jsstring) (upstream : Upstream) (fuel n : nat)
        (systemPrompt userMessage : jsstring) (retryCount modelIndex : nat).

Let request : Request :=
  {| model := chain !! modelIndex; system := systemPrompt; user := userMessage |}.

Lemma callOpenRouter_settled :
  (forall ms r' m', attempt chain modelIndex (upstream n request) <> Again ms r' m') ->
  is_Some (callOpenRouter chain (S fuel) upstream n systemPrompt userMessage
                          retryCount modelIndex).1 /\
  (callOpenRouter chain (S fuel) upstream n systemPrompt userMessage
                  retryCount modelIndex).2 = [Fetch request].
Proof.
  intros Hstep. cbn [callOpenRouter]. fold request.
  destruct (attempt chain modelIndex (upstream n request)) as [v|message|ms r' m'];
    [done..|by destruct (Hstep ms r' m')].
Qed.

Lemma callOpenRouter_switch ms r' m' :
  attempt chain modelIndex (upstream n request) = Again ms r' m' ->
  callOpenRouter chain (S fuel) upstream n systemPrompt userMessage
                 retryCount modelIndex
    = ((callOpenRouter chain fuel upstream (S n) systemPrompt userMessage r' m').1,
       Fetch request :: Sleep ms ::
       (callOpenRouter chain fuel upstream (S n) systemPrompt userMessage r' m').2).
Proof.
  intros H. cbn [callOpenRouter]. fold request. rewrite H.
  by destruct (callOpenRouter chain fuel upstream (S n) _ _ r' m').
Qed.

End Equations.

Lemma fetches_step request ms trace :
  fetches (Fetch request :: Sleep ms :: trace) = request :: fetches trace.
Proof. reflexivity. Qed.

Lemma attempt_again_429 chain modelIndex fetched ms r' m' :
  attempt chain modelIndex fetched = Again ms r' m' -> answers_429 fetched.
Proof.
  unfold attempt. destruct fetched as [message|response]; [done|].
  destruct (Z.eqb_spec (status response) 429) as [H429|_]; cbn [andb].
  - intros _. by exists response.
  - destruct (negb (ok response)); [done|]. by destruct (bind _ _).
Qed.

(** In server.js only a 429 leads to a second request: on any other
    answer, a 5xx or a failed fetch included, the call settles after its
    first request. *)
Theorem settles_at_once_unless_limited
    chain upstream fuel n systemPrompt userMessage retryCount modelIndex :
  let request := {| model := chain !! modelIndex; system := systemPrompt;
                    user := userMessage |} in
  ~ answers_429 (upstream n request) ->
  is_Some (callOpenRouter chain (S fuel) upstream n systemPrompt userMessage
                          retryCount modelIndex).1 /\
  (callOpenRouter chain (S fuel) upstream n systemPrompt userMessage
                  retryCount modelIndex).2 = [Fetch request].
Proof.
  intros request Hnot. apply callOpenRouter_settled.
  intros ms r' m' Hstep. by apply attempt_again_429 in Hstep.
Qed.

Lemma settles_at_once_unless_limited_witness :
  is_Some (callOpenRouter (MODEL_FALLBACKS None) 1 always_unavailable 0 [] [] 0 0).1 /\
  (callOpenRouter (MODEL_FALLBACKS None) 1 always_unavailable 0 [] [] 0 0).2
    = [Fetch {| model := MODEL_FALLBACKS None !! 0; system := []; user := [] |}].
Proof.
  refine (settles_at_once_unless_limited (MODEL_FALLBACKS None) always_unavailable
            0 0 [] [] 0 0 _).
  intros (response & [= <-] & Hstatus). discriminate.
Defined.

(** [callOpenRouter] of server.js asks the models in the order of the
    chain, each at most once, starting with the one it is given, and has
    settled when the chain is through. *)
Theorem models_asked_in_order chain upstream systemPrompt userMessage :
  forall fuel n retryCount modelIndex,
    0 < fuel -> length chain - modelIndex <= fuel ->
    is_Some (callOpenRouter chain fuel upstream n systemPrompt userMessage
                            retryCount modelIndex).1 /\
    exists count,
      1 <= count /\ count <= Nat.max 1 (length chain - modelIndex) /\
      fetches (callOpenRouter chain fuel upstream n systemPrompt userMessage
                              retryCount modelIndex).2
        = map (fun i => {| model := chain !! i; system := systemPrompt;
                           user := userMessage |})
              (seq modelIndex count).
Proof.
  induction fuel as [|fuel IH]; intros n r m Hpos Hfuel; [lia|].
  destruct (attempt chain m
              (upstream n {| model := chain !! m; system := systemPrompt;
                             user := userMessage |}))
    as [v|message|ms r' m'] eqn:Hstep.
  - destruct (callOpenRouter_settled chain upstream fuel n systemPrompt userMessage
                r m) as [Hsome Htrace]; [by rewrite Hstep|].
    split; [done|]. exists 1. rewrite Htrace. repeat split; lia || done.
  - destruct (callOpenRouter_settled chain upstream fuel n systemPrompt userMessage
                r m) as [Hsome Htrace]; [by rewrite Hstep|].
    split; [done|]. exists 1. rewrite Htrace. repeat split; lia || done.
  - rewrite (callOpenRouter_switch _ _ _ _ _ _ _ _ _ _ _ Hstep). cbn [fst snd].
    apply attempt_again in Hstep as [-> Hnext].
    destruct (IH (S n) r' (m + 1)) as (Hsome & count & Hone & Hmax & Hfetches);
      [lia..|].
    split; [done|]. exists (S count). repeat split; [lia..|].
    rewrite fetches_step, Hfetches. cbn [seq map].
    by replace (m + 1) with (S m) by lia.
Qed.

Lemma models_asked_in_order_witness :
  is_Some (callOpenRouter (MODEL_FALLBACKS None) 5 always_limited 0 [] [] 0 0).1 /\
  exists count,
    1 <= count /\ count <= Nat.max 1 (length (MODEL_FALLBACKS None) - 0) /\
    fetches (callOpenRouter (MODEL_FALLBACKS None) 5 always_limited 0 [] [] 0 0).2
      = map (fun i => {| model := MODEL_FALLBACKS None !! i; system := [];
                         user := [] |})
            (seq 0 count).
Proof.
  refine (models_asked_in_order (MODEL_FALLBACKS None) always_limited [] [] 5 0 0 0 _ _).
  - lia.
  - simpl. lia.
Defined.

(** What [callOpenRouter] of server.js returns is truthy: the content of
    the completion, or ["No response"] in its place. *)
Theorem returns_truthy chain upstream systemPrompt userMessage v :
  forall fuel n retryCount modelIndex,
    (callOpenRouter chain fuel upstream n systemPrompt userMessage
                    retryCount modelIndex).1 = Some (Normal v) ->
    truthy v = true.
Proof.
  induction fuel as [|fuel IH]; intros n r m; [done|].
  destruct (attempt chain m
              (upstream n {| model := chain !! m; system := systemPrompt;
                             user := userMessage |}))
    as [w|message|ms r' m'] eqn:Hstep.
  - cbn [callOpenRouter]. rewrite Hstep. cbn [fst]. intros [= ->].
    revert Hstep. unfold attempt.
    destruct (upstream n _) as [?|response]; [done|].
    destruct (_ && _); [done|]. destruct (negb (ok response)); [done|].
    destruct (json response) as [data|]; [|done]. cbn [bind].
    repeat match goal with
           | |- context [bind ?x _] => destruct x as [?|?]; cbn [bind]
           end; try done.
    intros [= <-]. unfold or_else.
    match goal with |- truthy (if truthy ?c then _ else _) = true =>
      destruct (truthy c) eqn:Hc end; done.
  - cbn [callOpenRouter]. by rewrite Hstep.
  - rewrite (callOpenRouter_switch _ _ _ _ _ _ _ _ _ _ _ Hstep). cbn [fst].
    apply IH.
Qed.

Lemma returns_truthy_witness :
  (callOpenRouter (MODEL_FALLBACKS None) 1 (fun _ _ => Resolves no_content)
                  0 [] [] 0 0).1 = Some (Normal (JStr (lit "No response"))) /\
  truthy (JStr (lit "No response")) = true.
Proof.
  assert ((callOpenRouter (MODEL_FALLBACKS None) 1 (fun _ _ => Resolves no_content)
                          0 [] [] 0 0).1 = Some (Normal (JStr (lit "No response"))))
    as Hrun by (vm_compute; reflexivity).
  split; [exact Hrun|].
  exact (returns_truthy (MODEL_FALLBACKS None) (fun _ _ => Resolves no_content)
           [] [] (JStr (lit "No response")) 1 0 0 0 Hrun).
Defined.

End ServerJsExtras.

(** ** The requests of part_000 *)

Module RequestExtras.
Import Part000 Scenarios Part000Facts HandlerFacts.

(** Whatever the endpoint answers, every request of a call that starts
    inside the chain names a model of the chain and carries the prompt
    and the message the call was given, unchanged from one retry to the
    next. *)
Theorem requests_well_formed
    chain upstream fuel n systemPrompt userMessage retryCount modelIndex request :
  modelIndex < length chain ->
  request ∈ fetches (callOpenRouter chain fuel upstream n systemPrompt userMessage
                                     retryCount modelIndex).2 ->
  (exists name, model request = Some name /\ name ∈ chain) /\
  system request = systemPrompt /\
  user request = userMessage.
Proof.
  intros Hm Hin. split.
  - by eapply models_in_chain.
  - by eapply requests_carry_message.
Qed.

Lemma requests_well_formed_witness :
  (exists name,
      model {| model := Some (lit "google/gemini-2.0-flash-exp:free");
               system := lit "prompt"; user := lit "entry" |} = Some name /\
      name ∈ MODEL_FALLBACKS None) /\
  system {| model := Some (lit "google/gemini-2.0-flash-exp:free");
            system := lit "prompt"; user := lit "entry" |} = lit "prompt" /\
  user {| model := Some (lit "google/gemini-2.0-flash-exp:free");
          system := lit "prompt"; user := lit "entry" |} = lit "entry".
Proof.
  refine (requests_well_formed (MODEL_FALLBACKS None) always_limited 2 0
            (lit "prompt") (lit "entry") 0 0 _ _ _).
  - simpl. lia.
  - vm_compute. apply elem_of_cons. right. apply elem_of_cons. by left.
Defined.

End RequestExtras.

(** ** The unchecked content of a completion *)

Module ContentFacts.
Import Part000 Scenarios Part000Facts.

(** C6 (as the code has it): the guard of [callOpenRouter] tests
    [choices], [choices[0]] and [choices[0].message] and not the
    content: on a success answer that has the three and no [content] the
    call does not fail with the invalid-structure error, it returns
    [undefined]. *)
Theorem missing_content_returned_as_undefined
    chain upstream fuel n systemPrompt userMessage retryCount modelIndex
    response data choices first message :
  let request := {| model := chain !! modelIndex; system := systemPrompt;
                    user := userMessage |} in
  upstream n request = Resolves response ->
  ok response = true ->
  json response = Normal data ->
  get data (lit "choices") = Normal choices -> truthy choices = true ->
  get0 choices = Normal first -> truthy first = true ->
  get first (lit "message") = Normal message -> truthy message = true ->
  get message (lit "content") = Normal JUndefined ->
  callOpenRouter chain (S fuel) upstream n systemPrompt userMessage
                 retryCount modelIndex
    = (Some (Normal JUndefined), [Fetch request]) /\
  (callOpenRouter chain (S fuel) upstream n systemPrompt userMessage
                  retryCount modelIndex).1
    <> Some (Thrown invalid_structure).
Proof.
  intros request Hup Hok Hjson Hc Tc Hf Tf Hm Tm Hcontent.
  assert (callOpenRouter chain (S fuel) upstream n systemPrompt userMessage
                         retryCount modelIndex
          = (Some (Normal JUndefined), [Fetch request])) as Hrun.
  { apply callOpenRouter_return. fold request. rewrite Hup.
    unfold attempt, try_block. rewrite Hjson. cbn [bind].
    destruct (Z.eqb_spec (status response) 429) as [H429|_].
    { unfold ok in Hok. rewrite H429 in Hok. done. }
    rewrite Hok. cbn [negb]. rewrite Hc. cbn [bind]. rewrite Tc, Hf. cbn [bind negb].
    rewrite Tf, Hm. cbn [bind negb]. by rewrite Tm, Hcontent. }
  split; [done|]. by rewrite Hrun.
Qed.

Lemma missing_content_returned_as_undefined_witness :
  callOpenRouter (MODEL_FALLBACKS None) 1 (fun _ _ => Resolves no_content) 0 [] [] 0 0
    = (Some (Normal JUndefined),
       [Fetch {| model := MODEL_FALLBACKS None !! 0; system := []; user := [] |}]).
Proof.
  refine (proj1 (missing_content_returned_as_undefined (MODEL_FALLBACKS None)
                   (fun _ _ => Resolves no_content) 0 0 [] [] 0 0 no_content
                   _ _ _ _ _ _ _ _ _ _ _ _ _ _));
    reflexivity.
Defined.

End ContentFacts.

(** ** Requests whose body was not parsed *)

Module BodyFacts.
Import Scenarios JSFacts HandlerFacts HandlerExtras.

(** C8 (as the code has it): on a request whose body was not parsed
    [req.body] is [undefined], [const { entry } = req.body] throws inside
    the [try] block, and both servers answer 500, not 400; no request
    goes to the completion endpoint. *)
Theorem unparsed_body_answered_500 chain fuel upstream now :
  Part000.analyze_request chain fuel upstream now JUndefined
    = (Some {| code := 500;
               payload := JObj [ (lit "error", JStr (lit "Internal server error"));
                                 (lit "message",
                                  JStr (lit "An unexpected error occurred while analyzing your entry")) ] |},
       []) /\
  ServerJs.analyze_request chain fuel upstream JUndefined
    = (Some {| code := 500;
               payload := JObj [ (lit "error", JStr (lit "Internal error"));
                                 (lit "message",
                                  JStr (cannot_destructure (lit "entry") (lit "undefined"))) ] |},
       []).
Proof. split; reflexivity. Qed.

(** On every other body the handlers refuse an entry that is missing,
    not a string, empty or white space only with a 400, asking the
    endpoint nothing. *)
Lemma parsed_body_invalid_entry_rejected chain fuel upstream now req_body entry :
  get req_body (lit "entry") = Normal entry ->
  invalid_entry entry ->
  (exists response,
      Part000.analyze_request chain fuel upstream now req_body = (Some response, []) /\
      code response = 400%Z) /\
  (exists response,
      ServerJs.analyze_request chain fuel upstream req_body = (Some response, []) /\
      code response = 400%Z).
Proof.
  intros Hget Hinvalid.
  assert (exists props,
            Part000.analyze_request chain fuel upstream now req_body
              = Part000.analyze chain fuel upstream now props /\
            ServerJs.analyze_request chain fuel upstream req_body
              = ServerJs.analyze chain fuel upstream props /\
            entry = default JUndefined (own (lit "entry") props))
    as (props & -> & -> & ->).
  { destruct req_body; try done; cbn [get] in Hget; simplify_eq;
      solve [by exists [] | by eexists]. }
  destruct (invalid_entry_rejected chain fuel upstream now props Hinvalid)
    as [(r1 & H1 & C1 & _) (r2 & H2 & C2 & _)].
  split; [by exists r1|by exists r2].
Qed.

(** [/recap] makes no remote request when [entries] is missing, not a
    string, empty or white space only: on a [req.body] that is [undefined]
    or [null] the destructuring throws and both servers answer 500, on
    every other body they answer 400 "Invalid input". *)
Theorem recap_request_invalid chain fuel upstream now req_body :
  (is_nullish req_body = true ->
   (exists response,
       Part000.recap_request chain fuel upstream now req_body = (Some response, []) /\
       code response = 500%Z) /\
   (exists response,
       ServerJs.recap_request chain fuel upstream req_body = (Some response, []) /\
       code response = 500%Z)) /\
  (forall entries,
      get req_body (lit "entries") = Normal entries ->
      invalid_entry entries ->
      (exists response,
          Part000.recap_request chain fuel upstream now req_body = (Some response, []) /\
          code response = 400%Z /\
          own (lit "error") (match payload response with JObj props => props | _ => [] end)
            = Some (JStr (lit "Invalid input"))) /\
      (exists response,
          ServerJs.recap_request chain fuel upstream req_body = (Some response, []) /\
          code response = 400%Z /\
          own (lit "error") (match payload response with JObj props => props | _ => [] end)
            = Some (JStr (lit "Invalid input")))).
Proof.
  split.
  - destruct req_body; try done; intros _; split; eexists; (split; [reflexivity|]);
      reflexivity.
  - intros entries Hget Hinvalid.
    assert (exists props,
              Part000.recap_request chain fuel upstream now req_body
                = Part000.recap chain fuel upstream now props /\
              ServerJs.recap_request chain fuel upstream req_body
                = ServerJs.recap chain fuel upstream props /\
              entries = default JUndefined (own (lit "entries") props))
      as (props & -> & -> & ->).
    { destruct req_body; try done; cbn [get] in Hget; simplify_eq;
        solve [by exists [] | by eexists]. }
    exact (recap_invalid_rejected chain fuel upstream now props Hinvalid).
Qed.

Lemma recap_request_invalid_witness :
  (exists response,
      Part000.recap_request (Part000.MODEL_FALLBACKS None) 5 always_limited []
                            JUndefined = (Some response, []) /\
      code response = 500%Z) /\
  (exists response,
      ServerJs.recap_request (ServerJs.MODEL_FALLBACKS None) 5 always_limited
                             (JObj [ (lit "entries", JStr (lit "  ")) ])
        = (Some response, []) /\
      code response = 400%Z /\
      own (lit "error") (match payload response with JObj props => props | _ => [] end)
        = Some (JStr (lit "Invalid input"))).
Proof.
  split.
  - refine (proj1 (proj1 (recap_request_invalid (Part000.MODEL_FALLBACKS None) 5
                            always_limited [] JUndefined) _)).
    reflexivity.
  - refine (proj2 (proj2 (recap_request_invalid (ServerJs.MODEL_FALLBACKS None) 5
                            always_limited []
                            (JObj [ (lit "entries", JStr (lit "  ")) ]))
                         (JStr (lit "  ")) _ _)).
    + reflexivity.
    + vm_compute. reflexivity.
Defined.

End BodyFacts.
